(** * react-renderless: StateProvider and withRender

    A shallow embedding of [src/StateProvider.js] and [src/withRender.js]
    together with the two container classes of the README ([SimpleState]
    and [Reducer]), and the properties of the specification proved about
    them.

    Layout: the JavaScript data the library touches (module [JS]), the
    part of the host library the sources call into (module [React]), the
    two source files (modules [StateProviderJs], [WithRenderJs]), mounting
    and the life of an instance (module [Lifecycle]), two sentences of
    the specification as it words them (module [Spec]), the README
    classes (module [Readme]), fixtures (module [Demo]), the declared
    propTypes, the README's text boxes and chained calls (modules
    [PropTypesJs], [ReadmeTextboxes], [Calls]), then the lemmas. *)

From stdpp Require Import base option gmap strings list pretty.

Set Warnings "-register-all".

(* ===================================================================== *)
(** ** JavaScript values *)
(* ===================================================================== *)

Module JS.

(** An allocation site: what [===] compares on objects and functions. *)
Definition loc := nat.

(** The body of a function value.  [ReturnNull] is the body of
    [defaultRender() { return null }]; every other function of the
    program is named by a number and run by the environment
    ([UserCode] below). *)
Inductive code :=
| ReturnNull
| UserFn (n : nat).

(** Values.  Numbers are the integral ones plus [NaN]; none of the code
    modelled here does arithmetic, it only tests numbers for truthiness.
    An object carries its identity and its own enumerable properties:
    nothing in the sources assigns to a property of an existing object
    (state changes allocate a new state object), so the properties can
    travel with the reference.  A function carries its identity, its
    [name] and its body. *)
Inductive value :=
| VUndefined
| VNull
| VBool (b : bool)
| VNum (n : Z)
| VNaN
| VStr (s : string)
| VObj (l : loc) (fields : gmap string value)
| VFun (l : loc) (name : string) (body : code).

(** [ToBoolean]: the falsy values are [undefined], [null], [false], [0],
    [NaN] and the empty string. *)
Definition to_boolean (v : value) : bool :=
  match v with
  | VUndefined | VNull | VNaN => false
  | VBool b => b
  | VNum n => negb (Z.eqb n 0)
  | VStr s => negb (String.eqb s "")
  | VObj _ _ | VFun _ _ _ => true
  end.

(** [a || b] on values that are already evaluated. *)
Definition or_else (a b : value) : value :=
  if to_boolean a then a else b.

(** [a === b]: by value on primitives ([NaN] differs from itself), by
    identity on objects and functions. *)
Definition strict_equal (a b : value) : bool :=
  match a, b with
  | VUndefined, VUndefined | VNull, VNull => true
  | VBool x, VBool y => bool_decide (x = y)
  | VNum x, VNum y => bool_decide (x = y)
  | VStr x, VStr y => bool_decide (x = y)
  | VObj l _, VObj l' _ => bool_decide (l = l')
  | VFun l _ _, VFun l' _ _ => bool_decide (l = l')
  | _, _ => false
  end.

(** Own enumerable properties of a string: one per character, keyed by
    its decimal index. *)
Fixpoint string_entries (i : nat) (s : string) : gmap string value :=
  match s with
  | EmptyString => ∅
  | String c s' =>
      <[pretty i := VStr (String c EmptyString)]> (string_entries (S i) s')
  end.

(** What [...v] copies: the own enumerable properties of [v].  Objects
    give their properties, strings their characters, every other value
    (also [null] and [undefined]) nothing. *)
Definition own_props (v : value) : gmap string value :=
  match v with
  | VObj _ fields => fields
  | VStr s => string_entries 0 s
  | _ => ∅
  end.

(** [o.k] on a property bag: [undefined] when [k] is missing. *)
Definition get (o : gmap string value) (k : string) : value :=
  default VUndefined (o !! k).

(** [({ k }) => ...]: reading a property off the argument throws on
    [null] and [undefined]. *)
Definition destructure (v : value) (k : string) : option value :=
  match v with
  | VUndefined | VNull => None
  | _ => Some (get (own_props v) k)
  end.

(** One spread element of an object literal, [{...target, ...src}]:
    the properties of [src] are written over those already there. *)
Definition assign (target src : gmap string value) : gmap string value :=
  src ∪ target.

(** Deep (structural) equality, as test libraries define it: identical
    values are equal, and two objects are equal when they have the same
    keys with deep-equal values, whatever their identities. *)
Inductive deep_equal : value → value → Prop :=
| deep_equal_same v : deep_equal v v
| deep_equal_obj l1 l2 (f1 f2 : gmap string value) :
    dom f1 = dom f2 →
    (∀ k v1 v2, f1 !! k = Some v1 → f2 !! k = Some v2 → deep_equal v1 v2) →
    deep_equal (VObj l1 f1) (VObj l2 f2).

(** The functions the program receives from its user (presenters): a
    body number and the arguments give the returned value, or [None]
    when the call throws.  Presenters are pure. *)
Class UserCode := run : nat → list value → option value.

Definition run_body `{UserCode} (b : code) (args : list value) : option value :=
  match b with
  | ReturnNull => Some VNull
  | UserFn n => run n args
  end.

(** What a run leaves behind: which class getters were evaluated and
    which functions were called with which arguments. *)
Inductive event :=
| GetInitialState
| GetHandlers
| Call (f : value) (args : list value).

(** The world: the next free allocation site and the trace so far. *)
Record world := World { next : loc; trace : list event }.

(** Computations of the library: a result, or [None] for a thrown
    exception, and the world afterwards. *)
Definition M (A : Type) : Type := world → option A * world.

Definition ret {A} (a : A) : M A := λ w, (Some a, w).

Definition bind {A B} (m : M A) (k : A → M B) : M B :=
  λ w, match m w with
       | (Some a, w') => k a w'
       | (None, w') => (None, w')
       end.

(** Code written by the user of the library (class getters): it may
    allocate and it may throw, and it cannot touch the trace. *)
Definition Alloc (A : Type) : Type := loc → option (A * loc).

(** [{ ... }] in user code: a new object with the given properties. *)
Definition new_object (fields : gmap string value) : Alloc value :=
  λ n, Some (VObj n fields, S n).

(** Running user code inside the library. *)
Definition run_alloc {A} (a : Alloc A) : M A :=
  λ w, match a (next w) with
       | Some (v, n) => (Some v, World n (trace w))
       | None => (None, w)
       end.

Definition log (ev : event) : M unit :=
  λ w, (Some tt, World (next w) (trace w ++ [ev])).

(** Evaluating a getter, recorded as [ev]. *)
Definition getter (ev : event) (a : Alloc value) : M value :=
  bind (log ev) (λ _, run_alloc a).

Definition throw {A} : M A := λ w, (None, w).

(** An object literal in library code. *)
Definition object_literal (fields : gmap string value) : M value :=
  λ w, (Some (VObj (next w) fields), World (S (next w)) (trace w)).

(** [typeof v === function] *)
Definition is_function (v : value) : bool :=
  match v with VFun _ _ _ => true | _ => false end.

(** [f(args)]: a [TypeError] when [f] is not a function, otherwise the
    call is recorded and the body run. *)
Definition invoke `{UserCode} (f : value) (args : list value) : M value :=
  λ w, match f with
       | VFun _ _ b => (run_body b args, World (next w) (trace w ++ [Call f args]))
       | _ => (None, w)
       end.

End JS.

Import JS.

Notation "'let!' x ':=' m 'in' k" := (bind m (λ x, k))
  (at level 10, x name, m at level 100, k at level 200,
   format "'[v' 'let!'  x  ':='  m  'in' '/' k ']'").

(* ===================================================================== *)
(** ** The host library *)
(* ===================================================================== *)

Module React.

(** A mounted class component, seen from its own methods: [this.props],
    [this.state], [this._handlers] and [this.context]. *)
Record instance := Instance {
  props : gmap string value;
  state : value;
  _handlers : value;
  context : value;
}.

(** [super(props)]: the base constructor stores the properties; the
    constructor of the sources does not forward a context. *)
Definition Component (p : gmap string value) : instance :=
  {| props := p; state := VUndefined; _handlers := VUndefined;
     context := VUndefined |}.

Definition with_state (this : instance) (s : value) : instance :=
  {| props := props this; state := s; _handlers := _handlers this;
     context := context this |}.

Definition with_handlers (this : instance) (h : value) : instance :=
  {| props := props this; state := state this; _handlers := h;
     context := context this |}.

(** The host hands an instance its properties and context before each
    render. *)
Definition receive (this : instance) (p : gmap string value) (ctx : value)
    : instance :=
  {| props := p; state := state this; _handlers := _handlers this;
     context := ctx |}.

(** The argument of [setState]: a partial state, or an updater function
    of the previous state and the properties. *)
Inductive update :=
| Partial (v : value)
| Updater (f : value → gmap string value → Alloc value).

(** Modelled from the spec: [requestMutation], which is [setState] of the
    host library's component base class and so not among the sources of
    this repository.  The spec (4.1): it shallow-merges the partial state
    into the current state.  The merged state is a new object.  The
    updater form and the no-op on [null] and [undefined], which the
    README's [Reducer] relies on, follow the host library's
    documentation, as does the refusal of a primitive passed as partial
    state (a function argument is an [Updater]).  The re-render that
    follows is the host's business; see [lifetime] below. *)
Definition setState (u : update) (this : instance) : M instance :=
  let! partialState :=
    match u with
    | Partial (VBool _ | VNum _ | VNaN | VStr _) => throw
    | Partial v => ret v
    | Updater f => run_alloc (f (state this) (props this))
    end in
  match partialState with
  | VUndefined | VNull => ret this
  | _ =>
      let! s := object_literal
                  (assign (assign ∅ (own_props (state this)))
                          (own_props partialState)) in
      ret (with_state this s)
  end.

End React.

Import React.

(* ===================================================================== *)
(** ** src/StateProvider.js *)
(* ===================================================================== *)

Module StateProviderJs.

(** What a class extending [StateProvider] can override: the two getters
    and [defaultRender].  A getter sees the instance as far as the
    constructor has built it. *)
Record component_class := ComponentClass {
  class_name : string;
  initialState : instance → Alloc value;
  handlers : instance → Alloc value;
  defaultRender : value;
}.

(** The base class:
<<
  get initialState() { return {} }
  get handlers() { return {} }
  defaultRender() { return null }
>> *)
Definition StateProvider : component_class :=
  {| class_name := "StateProvider";
     initialState := λ _, new_object ∅;
     handlers := λ _, new_object ∅;
     defaultRender := VFun 0 "defaultRender" ReturnNull |}.

(** [props.initialState || this.initialState]: the getter is evaluated
    only when the property is falsy. *)
Definition initial_state (cls : component_class) (this : instance) : M value :=
  let v := get (props this) "initialState" in
  if to_boolean v then ret v
  else getter GetInitialState (initialState cls this).

(**
<<
  constructor(props) {
    super(props)
    this.state = props.initialState || this.initialState
    this._handlers = this.handlers
  }
>> *)
Definition construct (cls : component_class) (p : gmap string value)
    : M instance :=
  let this := Component p in
  let! s := initial_state cls this in
  let this := with_state this s in
  let! h := getter GetHandlers (handlers cls this) in
  ret (with_handlers this h).

(** The property names [render] takes out of [this.props]. *)
Definition reserved : list string := ["children"; "render"; "initialState"].

(** [const { children, render: renderProp, initialState, ...otherProps }
    = this.props]: the rest object. *)
Definition otherProps (this : instance) : gmap string value :=
  delete "initialState" (delete "render" (delete "children" (props this))).

(** [children || renderProp || this.defaultRender] *)
Definition renderer (cls : component_class) (this : instance) : value :=
  or_else (or_else (get (props this) "children") (get (props this) "render"))
          (defaultRender cls).

(** [{ ...otherProps, ...this.state, ...this._handlers }] *)
Definition payload (this : instance) : gmap string value :=
  assign (assign (assign ∅ (otherProps this)) (own_props (state this)))
         (own_props (_handlers this)).

(**
<<
  render() {
    const { children, render: renderProp, initialState, ...otherProps } = this.props
    const renderer = children || renderProp || this.defaultRender
    return renderer({ ...otherProps, ...this.state, ...this._handlers }, this.context)
  }
>> *)
Definition render `{UserCode} (cls : component_class) (this : instance)
    : M value :=
  let renderer := renderer cls this in
  let! merged := object_literal (payload this) in
  invoke renderer [merged; context this].

End StateProviderJs.

Import StateProviderJs.

(* ===================================================================== *)
(** ** src/withRender.js *)
(* ===================================================================== *)

Module WithRenderJs.

(** What a JSX expression evaluates to: the component type and the
    properties it will be constructed with. *)
Record element := Element {
  type : component_class;
  element_props : gmap string value;
}.

(** The names the host's [createElement] keeps for itself: they are read
    off the configuration object and never become properties. *)
Definition RESERVED_PROPS : list string :=
  ["key"; "ref"; "__self"; "__source"].

(** The configuration object without the host's reserved names. *)
Definition without_reserved (config : gmap string value)
    : gmap string value :=
  delete "__source" (delete "__self" (delete "ref" (delete "key" config))).

(** [React.createElement(type, config)] without nested content, as the
    host library has it: every own property of the configuration other
    than the reserved names becomes a property of the element.  The
    classes modelled here declare no [defaultProps]. *)
Definition createElement (t : component_class) (config : gmap string value)
    : element :=
  {| type := t; element_props := without_reserved config |}.

(** The two functions [withRender] can return, each identified by what
    it closes over: the arrow function [Combined], and
    [withRender.bind(undefined, Container)]. *)
Inductive composed :=
| Combined (Container : component_class) (Presenter : value)
| Bound (Container : component_class).

(**
<<
  function withRender(Container, Presenter) {
    if (!Presenter) return withRender.bind(undefined, Container)
    const Combined = props => <Container render={Presenter} {...props} />
    Combined.displayName = `${Container.name}(${Presenter.name})`
    return Combined
  }
>>
    An omitted second argument is [undefined]. *)
Definition withRender (Container : component_class) (Presenter : value)
    : composed :=
  if negb (to_boolean Presenter) then Bound Container
  else Combined Container Presenter.

(** [<Container render={Presenter} {...props} />]: the attributes are
    written left to right into the configuration object. *)
Definition Combined_call (Container : component_class) (Presenter : value)
    (props : gmap string value) : element :=
  createElement Container (assign (assign ∅ {["render" := Presenter]}) props).

(** Calling what [withRender] returned with one argument: a bound
    function passes it on as [Presenter] (an object argument is a
    truthy presenter), [Combined] takes it as properties. *)
Inductive call_result :=
| Returned_function (f : composed)
| Returned_element (e : element).

Definition call_composed (f : composed) (arg : value) : call_result :=
  match f with
  | Bound Container => Returned_function (withRender Container arg)
  | Combined Container Presenter =>
      Returned_element (Combined_call Container Presenter (own_props arg))
  end.

(** [f(a)(b)]: calling what a call returned; an element is not
    callable. *)
Definition call_again (r : call_result) (arg : value) : option call_result :=
  match r with
  | Returned_function f => Some (call_composed f arg)
  | Returned_element _ => None
  end.

(** [Combined.displayName]: the template is evaluated for a presenter
    that is a function or a primitive (whose [name] is [undefined]); for
    an object it would depend on how its [name] prints. *)
Definition displayName (f : composed) : option string :=
  match f with
  | Combined Container (VFun _ name _) =>
      Some (class_name Container +:+ "(" +:+ name +:+ ")")
  | Combined Container (VObj _ _) => None
  | Combined Container _ => Some (class_name Container +:+ "(undefined)")
  | Bound _ => None
  end.

End WithRenderJs.

Import WithRenderJs.

(* ===================================================================== *)
(** ** The host's life cycle *)
(* ===================================================================== *)

Module Lifecycle.

(** Mounting an element: construct the instance, hand it the context,
    render it. *)
Definition mount `{UserCode} (e : element) (ctx : value) : M value :=
  let! this := construct (type e) (element_props e) in
  render (type e) (receive this (props this) ctx).

(** What can happen to a mounted instance. *)
Inductive step :=
| Render
| SetState (u : update)
| Receive (p : gmap string value) (ctx : value).

Definition do_step `{UserCode} (cls : component_class) (s : step)
    (this : instance) (w : world) : instance * world :=
  match s with
  | Render => (this, (render cls this w).2)
  | SetState u =>
      match setState u this w with
      | (Some this', w') => (this', w')
      | (None, w') => (this, w')
      end
  | Receive p ctx => (receive this p ctx, w)
  end.

Fixpoint lifetime `{UserCode} (cls : component_class) (steps : list step)
    (this : instance) (w : world) : instance * world :=
  match steps with
  | [] => (this, w)
  | s :: rest =>
      let '(this', w') := do_step cls s this w in
      lifetime cls rest this' w'
  end.

(** How often an event occurs in a trace. *)
Definition occurrences (p : event → bool) (t : list event) : nat :=
  length (filter (λ e, p e = true) t).

Definition is_GetHandlers (e : event) : bool :=
  match e with GetHandlers => true | _ => false end.

Definition is_GetInitialState (e : event) : bool :=
  match e with GetInitialState => true | _ => false end.

(** A render call that hands over the handlers [h]: a call with a payload
    object and a context, in which every property of [h] is found with
    the very same value. *)
Definition passes_handlers (h : value) (e : event) : Prop :=
  match e with
  | Call _ [VObj _ fields; _] =>
      ∀ k v, own_props h !! k = Some v → fields !! k = Some v
  | _ => False
  end.

End Lifecycle.

Import Lifecycle.

(* ===================================================================== *)
(** ** Statements in the words of the specification *)
(* ===================================================================== *)

Module Spec.

(** The state [this] was given is the default state of the class: what
    the getter returns at construction, up to the identity of the
    object. *)
Definition is_default_state (cls : component_class) (p : gmap string value)
    (w : world) (this : instance) : Prop :=
  ∃ d n, initialState cls (Component p) (next w) = Some (d, n)
         ∧ deep_equal (state this) d.

(** Construction (4.1): the state is the initialState property if it is
    present and non-empty, else the default state of the class. *)
Definition state_as_specified (cls : component_class)
    (p : gmap string value) (w : world) (this : instance) : Prop :=
  match p !! "initialState" with
  | Some v =>
      if decide (dom (own_props v) = ∅)
      then is_default_state cls p w this
      else state this = v
  | None => is_default_state cls p w this
  end.

(** Combine (4.2): the explicit presenter always wins over a render
    property of the caller. *)
Definition presenter_always_wins : Prop :=
  ∀ (Container : component_class) (Presenter : value)
    (p : gmap string value),
    to_boolean Presenter = true →
    element_props (Combined_call Container Presenter p) !! "render"
      = Some Presenter.

End Spec.

Import Spec.

(* ===================================================================== *)
(** ** The container classes of the README *)
(* ===================================================================== *)

Module Readme.

(** Body numbers of the two handler functions. *)
Definition set_body : code := UserFn 0.
Definition action_body : code := UserFn 1.

(**
<<
  class SimpleState extends StateProvider {
    get initialState() { return { foo: ... } }       (the string bar)
    get handlers() {
      return { set: (key, value) => this.setState({ [key]: value }) }
    }
  }
>> *)
Definition SimpleState : component_class :=
  {| class_name := "SimpleState";
     initialState := λ _, new_object {["foo" := VStr "bar"]};
     handlers := λ _ n,
       Some (VObj n {["set" := VFun (S n) "set" set_body]}, S (S n));
     defaultRender := defaultRender StateProvider |}.

(** What the handler [set] does to the instance it closes over. *)
Definition set (key : string) (v : value) (this : instance) : M instance :=
  let! partialState := object_literal {[key := v]} in
  setState (Partial partialState) this.

Section Reducer.

(** The operators [+] and [-] of the language, whose coercions are not
    modelled, and what calling a member inherited from [Object.prototype]
    as if it were an entry of the table hands to [setState]. *)
Variable plus minus : value → value → value.
Variable inherited : string → value → M update.

(**
<<
  const reducer = {
    foo:update : ({ foo }) => ({ foo: foo }),
    bar:inc    : () => ({ bar }) => ({ bar: bar + 1 }),
    bar:dec    : () => ({ bar }) => ({ bar: bar - 1 })
  }
>> *)
Definition reducer : gmap string (value → M update) :=
  {[ "foo:update" := λ payload,
       match destructure payload "foo" with
       | Some foo => let! o := object_literal {["foo" := foo]} in
                     ret (Partial o)
       | None => throw
       end;
     "bar:inc" := λ _,
       ret (Updater (λ prevState _,
              match destructure prevState "bar" with
              | Some bar => new_object {["bar" := plus bar (VNum 1)]}
              | None => λ _, None
              end));
     "bar:dec" := λ _,
       ret (Updater (λ prevState _,
              match destructure prevState "bar" with
              | Some bar => new_object {["bar" := minus bar (VNum 1)]}
              | None => λ _, None
              end)) ]}.

(** The names every object literal inherits from [Object.prototype]. *)
Definition Object_prototype_names : list string :=
  ["constructor"; "hasOwnProperty"; "isPrototypeOf"; "propertyIsEnumerable";
   "toLocaleString"; "toString"; "valueOf"; "__proto__";
   "__defineGetter__"; "__defineSetter__"; "__lookupGetter__";
   "__lookupSetter__"].

(** [reducer[type]], [None] for [undefined]. *)
Definition reducer_at (type : string) : option (value → M update) :=
  match reducer !! type with
  | Some f => Some f
  | None =>
      if bool_decide (type ∈ Object_prototype_names)
      then Some (inherited type) else None
  end.

(**
<<
  action: (type, payload) => {
    if (!reducer[type]) return this.setState({});
    this.setState(reducer[type](payload));
  }
>> *)
Definition action (type : string) (payload : value) (this : instance)
    : M instance :=
  match reducer_at type with
  | None =>
      let! empty := object_literal ∅ in
      setState (Partial empty) this
  | Some f =>
      let! u := f payload in
      setState u this
  end.

End Reducer.

(** [class Reducer extends StateProvider]: only [handlers] is
    overridden; the getter allocates the table, its three functions, the
    returned object and its [action] function. *)
Definition Reducer : component_class :=
  {| class_name := "Reducer";
     initialState := initialState StateProvider;
     handlers := λ _ n,
       Some (VObj (4 + n) {["action" := VFun (5 + n) "action" action_body]},
             6 + n);
     defaultRender := defaultRender StateProvider |}.

End Readme.

(* ===================================================================== *)
(** ** Fixtures for the examples *)
(* ===================================================================== *)

Module Demo.

(** Two presenters.  Body 2 is the README's [({ foo }) => <b>{foo}</b>],
    its output represented by the value of [foo]; body 3 ignores its
    arguments.  Every other body returns [undefined]. *)
Definition presenters : UserCode := λ n args,
  match n, args with
  | 2, merged :: _ => destructure merged "foo"
  | 2, [] => None
  | 3, _ => Some (VStr "other")
  | _, _ => Some VUndefined
  end.

Definition Presenter : value := VFun 20 "Presenter" (UserFn 2).
Definition Other : value := VFun 21 "Other" (UserFn 3).

(** A world in which the sites below 100 are taken. *)
Definition w0 : world := World 100 [].

End Demo.

Import Readme Demo.

(* ===================================================================== *)
(** ** The rest of the sources *)
(* ===================================================================== *)

Module PropTypesJs.

(** [PropTypes.func], not required: passes on [undefined] and [null]
    and on functions. *)
Definition PropTypes_func (v : value) : bool :=
  match v with
  | VUndefined | VNull | VFun _ _ _ => true
  | _ => false
  end.

(** [PropTypes.object], not required. *)
Definition PropTypes_object (v : value) : bool :=
  match v with
  | VUndefined | VNull | VObj _ _ => true
  | _ => false
  end.

(**
<<
  StateProvider.propTypes = {
    children: PropTypes.func,
    render: PropTypes.func,
    initialState: PropTypes.object,
  }
>> *)
Definition propTypes (p : gmap string value) : bool :=
  PropTypes_func (get p "children")
  && PropTypes_func (get p "render")
  && PropTypes_object (get p "initialState").

End PropTypesJs.

Import PropTypesJs.

Module ReadmeTextboxes.

Definition setText_body : code := UserFn 4.

(**
<<
  class Text extends StateProvider {
    get handlers() {
      return { setText: e => this.setState({ text: e.target.value }) }
    }
  }
>> *)
Definition Text : component_class :=
  {| class_name := "Text";
     initialState := initialState StateProvider;
     handlers := λ _ n,
       Some (VObj n {["setText" := VFun (S n) "setText" setText_body]},
             S (S n));
     defaultRender := defaultRender StateProvider |}.

(** What the handler [setText] does: [e.target.value] throws when [e]
    or [e.target] is [null] or [undefined]. *)
Definition setText (e : value) (this : instance) : M instance :=
  match destructure e "target" with
  | None => throw
  | Some target =>
      match destructure target "value" with
      | None => throw
      | Some v =>
          let! partialState := object_literal {["text" := v]} in
          setState (Partial partialState) this
      end
  end.

(** [React.createElement(type, config, child)]: the properties of
    [createElement], and the nested content stored as the [children]
    property, over one in [config]. *)
Definition createElement_with_child (t : component_class)
    (config : gmap string value) (child : value) : element :=
  {| type := t;
     element_props := <["children" := child]> (without_reserved config) |}.

(** [const TextInput = props => <Text {...props}>{Input}</Text>] *)
Definition TextInput (Input : value) (props : gmap string value) : element :=
  createElement_with_child Text (assign ∅ props) Input.

End ReadmeTextboxes.

Import ReadmeTextboxes.

Module Calls.

(** [f(a1)(a2)...(an)] *)
Fixpoint call_all (r : call_result) (args : list value)
    : option call_result :=
  match args with
  | [] => Some r
  | a :: rest =>
      match call_again r a with
      | Some r' => call_all r' rest
      | None => None
      end
  end.

Definition is_SetState (s : step) : bool :=
  match s with SetState _ => true | _ => false end.

End Calls.

Import Calls.

(* ===================================================================== *)
(** ** Property bags *)
(* ===================================================================== *)

Section property_bags.

Implicit Types (k : string) (o t s : gmap string value) (v : value).

Lemma lookup_assign t s k :
  assign t s !! k = match s !! k with Some v => Some v | None => t !! k end.
Proof.
  unfold assign. rewrite lookup_union.
  destruct (s !! k), (t !! k); reflexivity.
Qed.

Lemma assign_empty_l s : assign ∅ s = s.
Proof. unfold assign. apply (right_id_L ∅ (∪)). Qed.

Lemma assign_empty_r t : assign t ∅ = t.
Proof. unfold assign. apply (left_id_L ∅ (∪)). Qed.

Lemma get_Some o k v : o !! k = Some v → get o k = v.
Proof. unfold get. intros ->. reflexivity. Qed.

Lemma get_None o k : o !! k = None → get o k = VUndefined.
Proof. unfold get. intros ->. reflexivity. Qed.

Lemma lookup_otherProps this k :
  otherProps this !! k =
    if bool_decide (k ∈ reserved) then None else props this !! k.
Proof.
  unfold otherProps, reserved.
  rewrite !lookup_delete.
  case_bool_decide as Hin; rewrite !elem_of_cons, elem_of_nil in Hin;
    repeat case_decide; subst; try done.
  all: exfalso; intuition congruence.
Qed.

Lemma lookup_payload this k :
  payload this !! k =
    match own_props (_handlers this) !! k with
    | Some h => Some h
    | None =>
        match own_props (state this) !! k with
        | Some x => Some x
        | None => otherProps this !! k
        end
    end.
Proof.
  unfold payload. rewrite !lookup_assign, lookup_empty.
  destruct (own_props (_handlers this) !! k); [reflexivity|].
  destruct (own_props (state this) !! k); [reflexivity|].
  destruct (otherProps this !! k); reflexivity.
Qed.

End property_bags.

(* ===================================================================== *)
(** ** Rendering *)
(* ===================================================================== *)

Section rendering.

Context `{UserCode}.

Implicit Types (cls : component_class) (this : instance) (w : world).

Lemma render_unfold cls this w :
  render cls this w =
    invoke (renderer cls this) [VObj (next w) (payload this); context this]
           (World (S (next w)) (trace w)).
Proof. reflexivity. Qed.

Lemma invoke_trace f args w :
  trace (invoke f args w).2 =
    trace w ++ (if is_function f then [Call f args] else []).
Proof.
  destruct f; simpl; rewrite ?app_nil_r; reflexivity.
Qed.

Lemma invoke_next f args w : next (invoke f args w).2 = next w.
Proof. destruct f; reflexivity. Qed.

Lemma render_next cls this w : next (render cls this w).2 = S (next w).
Proof. rewrite render_unfold, invoke_next. reflexivity. Qed.

Lemma render_trace cls this w :
  trace (render cls this w).2 =
    trace w ++ (if is_function (renderer cls this)
                then [Call (renderer cls this)
                        [VObj (next w) (payload this); context this]]
                else []).
Proof. rewrite render_unfold, invoke_trace. reflexivity. Qed.

(** C1. On every render the resolved rendering function is called with a
    new object holding the passed-through properties (the input
    properties without children, render and initialState), overwritten by
    the state, overwritten by the stored handlers: on a shared key the
    handler wins over the state, which wins over the property. *)
Theorem render_payload_is_ordered_merge cls this w :
  render cls this w =
    invoke (renderer cls this) [VObj (next w) (payload this); context this]
           (World (S (next w)) (trace w))
  ∧ trace (render cls this w).2 =
      trace w ++ (if is_function (renderer cls this)
                  then [Call (renderer cls this)
                          [VObj (next w) (payload this); context this]]
                  else [])
  ∧ payload this =
      own_props (_handlers this) ∪ (own_props (state this) ∪ otherProps this)
  ∧ (∀ k, otherProps this !! k =
            if bool_decide (k ∈ ["children"; "render"; "initialState"])
            then None else props this !! k)
  ∧ (∀ k, payload this !! k =
            match own_props (_handlers this) !! k with
            | Some h => Some h
            | None =>
                match own_props (state this) !! k with
                | Some x => Some x
                | None => otherProps this !! k
                end
            end).
Proof.
  split; [apply render_unfold|].
  split; [apply render_trace|].
  split.
  - unfold payload. rewrite assign_empty_l. reflexivity.
  - split; intros k; [apply lookup_otherProps | apply lookup_payload].
Qed.

(** C5. Render calls the nested content when it is truthy, else the
    render property when that is truthy, else the default render
    function of the class, each with the payload and the context; with
    neither supplied, a class that keeps the default of [StateProvider]
    renders without failing and returns [null]. *)
Theorem render_target_priority cls this w :
  let children := get (props this) "children" in
  let renderProp := get (props this) "render" in
  let args := [VObj (next w) (payload this); context this] in
  let allocated := World (S (next w)) (trace w) in
  (to_boolean children = true →
     renderer cls this = children
     ∧ render cls this w = invoke children args allocated)
  ∧ (to_boolean children = false → to_boolean renderProp = true →
     renderer cls this = renderProp
     ∧ render cls this w = invoke renderProp args allocated)
  ∧ (to_boolean children = false → to_boolean renderProp = false →
     renderer cls this = defaultRender cls
     ∧ render cls this w = invoke (defaultRender cls) args allocated)
  ∧ (props this !! "children" = None → props this !! "render" = None →
     defaultRender cls = defaultRender StateProvider →
     render cls this w =
       (Some VNull,
        World (S (next w))
              (trace w ++ [Call (defaultRender StateProvider) args]))).
Proof.
  intros children renderProp args allocated.
  assert (Hrender : render cls this w
                    = invoke (renderer cls this) args allocated)
    by apply render_unfold.
  unfold renderer, or_else in *. fold children renderProp in Hrender |- *.
  split; [|split; [|split]].
  - intros Hc. rewrite Hc in Hrender |- *. cbn match in *.
    rewrite Hc in Hrender |- *. auto.
  - intros Hc Hr. rewrite Hc in Hrender |- *. cbn match in *.
    rewrite Hr in Hrender |- *. auto.
  - intros Hc Hr. rewrite Hc in Hrender |- *. cbn match in *.
    rewrite Hr in Hrender |- *. auto.
  - intros Hc Hr Hd. rewrite Hrender. subst children renderProp.
    rewrite (get_None _ _ Hc), (get_None _ _ Hr), Hd. reflexivity.
Qed.

(** C8. Two renders in a row of an unchanged instance pass payload
    objects with the same properties, hence deep-equal, and at two
    different allocation sites, hence not the same object. *)
Theorem consecutive_renders_equal_payloads cls this w :
  let w1 := (render cls this w).2 in
  let p1 := VObj (next w) (payload this) in
  let p2 := VObj (next w1) (payload this) in
  render cls this w =
    invoke (renderer cls this) [p1; context this]
           (World (S (next w)) (trace w))
  ∧ render cls this w1 =
      invoke (renderer cls this) [p2; context this]
             (World (S (next w1)) (trace w1))
  ∧ own_props p1 = own_props p2
  ∧ deep_equal p1 p2
  ∧ strict_equal p1 p2 = false.
Proof.
  intros w1 p1 p2. repeat split.
  - constructor; [reflexivity|]. intros k v1 v2 H1 H2.
    rewrite H1 in H2. injection H2 as ->. constructor.
  - subst p1 p2 w1. simpl. rewrite render_next.
    apply bool_decide_eq_false. lia.
Qed.

End rendering.

(** The witness of C5: nested content over a render property, a render
    property behind a falsy nested content, no truthy target, and no
    target at all; what render returns is what the chosen function
    returns. *)
Lemma render_target_priority_witness :
  let state := VObj 7 {["foo" := VStr "baz"]} in
  let kids := Instance {["children" := Other; "render" := Presenter]}
                       state VUndefined VUndefined in
  let prop := Instance {["children" := VNull; "render" := Presenter]}
                       state VUndefined VUndefined in
  let none := Instance {["children" := VNull; "render" := VNum 0]}
                       state VUndefined VUndefined in
  let bare := Instance {["other" := VNum 1]}
                       state VUndefined VUndefined in
  (@render presenters SimpleState kids w0).1 = Some (VStr "other")
  ∧ (@render presenters SimpleState prop w0).1 = Some (VStr "baz")
  ∧ (@render presenters SimpleState none w0).1 = Some VNull
  ∧ (@render presenters SimpleState bare w0).1 = Some VNull.
Proof.
  intros state kids prop none bare.
  destruct (@render_target_priority presenters SimpleState kids w0)
    as (Hkids & _ & _ & _).
  destruct (@render_target_priority presenters SimpleState prop w0)
    as (_ & Hprop & _ & _).
  destruct (@render_target_priority presenters SimpleState none w0)
    as (_ & _ & Hnone & _).
  destruct (@render_target_priority presenters SimpleState bare w0)
    as (_ & _ & _ & Hbare).
  split; [|split; [|split]].
  - destruct (Hkids eq_refl) as [_ ->]. reflexivity.
  - destruct (Hprop eq_refl eq_refl) as [_ ->]. reflexivity.
  - destruct (Hnone eq_refl eq_refl) as [_ ->]. reflexivity.
  - rewrite Hbare; reflexivity.
Defined.

(* ===================================================================== *)
(** ** Construction *)
(* ===================================================================== *)

Section construction.

Implicit Types (cls : component_class) (this : instance) (w : world).
Implicit Types (p : gmap string value).

Lemma occurrences_app q (t1 t2 : list event) :
  occurrences q (t1 ++ t2) = occurrences q t1 + occurrences q t2.
Proof. unfold occurrences. rewrite filter_app, length_app. reflexivity. Qed.

Lemma occurrences_one q (e : event) :
  occurrences q [e] = if q e then 1 else 0.
Proof.
  unfold occurrences. rewrite filter_cons, filter_nil.
  destruct (q e); case_decide; try reflexivity; congruence.
Qed.

Lemma initial_state_truthy cls this w :
  to_boolean (get (props this) "initialState") = true →
  initial_state cls this w = (Some (get (props this) "initialState"), w).
Proof. unfold initial_state. intros ->. reflexivity. Qed.

Lemma initial_state_falsy cls this w :
  to_boolean (get (props this) "initialState") = false →
  initial_state cls this w =
    match initialState cls this (next w) with
    | Some (v, n) => (Some v, World n (trace w ++ [GetInitialState]))
    | None => (None, World (next w) (trace w ++ [GetInitialState]))
    end.
Proof.
  unfold initial_state. intros ->.
  unfold getter, bind, log, run_alloc. simpl.
  destruct (initialState cls this (next w)) as [[v n]|]; reflexivity.
Qed.

(** What a successful construction did, step by step. *)
Lemma construct_inv cls p w this w' :
  construct cls p w = (Some this, w') →
  ∃ s ws n,
    initial_state cls (Component p) w = (Some s, ws)
    ∧ handlers cls (with_state (Component p) s) (next ws)
        = Some (_handlers this, n)
    ∧ this = with_handlers (with_state (Component p) s) (_handlers this)
    ∧ w' = World n (trace ws ++ [GetHandlers]).
Proof.
  unfold construct, bind at 1.
  destruct (initial_state cls (Component p) w) as [[s|] ws] eqn:Hs;
    [|discriminate].
  unfold getter, bind, log, run_alloc, ret. simpl.
  destruct (handlers cls (with_state (Component p) s) (next ws))
    as [[h n]|] eqn:Hh; [|discriminate].
  intros [= <- <-]. exists s, ws, n. simpl. auto.
Qed.

Lemma initial_state_trace cls this w s ws :
  initial_state cls this w = (Some s, ws) →
  occurrences is_GetHandlers (trace ws) = occurrences is_GetHandlers (trace w).
Proof.
  destruct (to_boolean (get (props this) "initialState")) eqn:Hv.
  - rewrite initial_state_truthy by assumption. intros [= _ <-]. reflexivity.
  - rewrite initial_state_falsy by assumption.
    destruct (initialState cls this (next w)) as [[v n]|]; [|discriminate].
    intros [= _ <-]. simpl.
    rewrite occurrences_app, occurrences_one. simpl. lia.
Qed.

(** C3, as the code has it.  Construction sets the state to the
    initialState property whenever that property is truthy, and every
    object is, the empty one included, without evaluating the default;
    otherwise (property absent or falsy) to what the class's default-state
    getter returns.  So a supplied mapping S is the state whatever the
    class default, and with no initialState and the default of
    [StateProvider] the state is a new empty object. *)
Theorem construct_state cls p w this w' :
  construct cls p w = (Some this, w') →
  let v := get p "initialState" in
  (to_boolean v = true →
     state this = v
     ∧ occurrences is_GetInitialState (trace w')
         = occurrences is_GetInitialState (trace w))
  ∧ (to_boolean v = false →
     ∃ n, initialState cls (Component p) (next w) = Some (state this, n))
  ∧ (∀ l S, p !! "initialState" = Some (VObj l S) → state this = VObj l S)
  ∧ (p !! "initialState" = None →
     initialState cls = initialState StateProvider →
     state this = VObj (next w) ∅).
Proof.
  intros Hc v.
  destruct (construct_inv _ _ _ _ _ Hc) as (s & ws & n & Hs & Hh & -> & ->).
  simpl. clear Hc.
  assert (Ht : to_boolean v = true → s = v ∧ ws = w).
  { intros Hv. rewrite initial_state_truthy in Hs by exact Hv.
    injection Hs as <- <-. auto. }
  assert (Hf : to_boolean v = false →
               ∃ n, initialState cls (Component p) (next w) = Some (s, n)).
  { intros Hv. rewrite initial_state_falsy in Hs by exact Hv.
    destruct (initialState cls (Component p) (next w)) as [[d m]|];
      [|discriminate].
    injection Hs as <- _. eauto. }
  split; [|split; [|split]].
  - intros Hv. destruct (Ht Hv) as [-> ->]. split; [reflexivity|].
    rewrite occurrences_app, occurrences_one. simpl. lia.
  - exact Hf.
  - intros l S Hp. subst v. unfold get in Ht. rewrite Hp in Ht.
    apply Ht. reflexivity.
  - intros Hp Hd. subst v. unfold get in Hf. rewrite Hp, Hd in Hf.
    destruct (Hf eq_refl) as [m Hm]. simpl in Hm. unfold new_object in Hm.
    injection Hm as <- _. reflexivity.
Qed.

End construction.

(** The witness of C3: [SimpleState] constructed with a mapping, and
    [StateProvider] constructed without one. *)
Lemma construct_state_witness :
  let S := VObj 7 {["foo" := VStr "baz"]} in
  let p := {["initialState" := S; "other" := VNum 1]} in
  let q := {["other" := VNum 1]} in
  (∃ this w', construct SimpleState p w0 = (Some this, w') ∧ state this = S)
  ∧ (∃ this w', construct StateProvider q w0 = (Some this, w')
                ∧ state this = VObj 100 ∅).
Proof.
  intros S p q. split.
  - assert (Hc : construct SimpleState p w0
                 = (Some (Instance p S
                            (VObj 100 {["set" := VFun 101 "set" set_body]})
                            VUndefined),
                    World 102 [GetHandlers]))
      by (vm_compute; reflexivity).
    eexists _, _. split; [exact Hc|].
    apply (construct_state SimpleState p w0 _ _ Hc) with (l := 7).
    reflexivity.
  - assert (Hc : construct StateProvider q w0
                 = (Some (Instance q (VObj 100 ∅) (VObj 101 ∅) VUndefined),
                    World 102 [GetInitialState; GetHandlers]))
      by (vm_compute; reflexivity).
    eexists _, _. split; [exact Hc|].
    apply (construct_state StateProvider q w0 _ _ Hc); reflexivity.
Defined.

(** C3 as the spec words it fails: an initialState that is present and
    empty is kept, where the spec sends construction to the class
    default. *)
Lemma construct_keeps_empty_initialState :
  let p : gmap string value := {["initialState" := VObj 7 ∅]} in
  construct SimpleState p w0
    = (Some (Instance p (VObj 7 ∅)
                      (VObj 100 {["set" := VFun 101 "set" set_body]})
                      VUndefined),
       World 102 [GetHandlers])
  ∧ initialState SimpleState (Component p) (next w0)
      = Some (VObj 100 {["foo" := VStr "bar"]}, 101)
  ∧ ¬ (∀ cls p w this w',
         construct cls p w = (Some this, w') → state_as_specified cls p w this).
Proof.
  intros p.
  assert (Hc : construct SimpleState p w0
               = (Some (Instance p (VObj 7 ∅)
                          (VObj 100 {["set" := VFun 101 "set" set_body]})
                          VUndefined),
                  World 102 [GetHandlers])) by (vm_compute; reflexivity).
  split; [exact Hc|]. split; [reflexivity|].
  intros Hspec. specialize (Hspec _ _ _ _ _ Hc).
  unfold state_as_specified in Hspec.
  replace (p !! "initialState") with (Some (VObj 7 ∅)) in Hspec
    by (symmetry; apply lookup_singleton_eq).
  simpl in Hspec. rewrite decide_True in Hspec by apply dom_empty_L.
  destruct Hspec as (d & n & Hd & Heq). simpl in Hd.
  injection Hd as <- _. simpl in Heq.
  inversion Heq as [|? ? ? ? Hdom _]; subst.
  rewrite dom_empty_L, dom_singleton_L in Hdom.
  assert (Hin : "foo" ∈ (∅ : gset string)) by (rewrite Hdom; set_solver).
  set_solver.
Qed.

(* ===================================================================== *)
(** ** The life of an instance *)
(* ===================================================================== *)

Section lifetime.

Context `{UserCode}.

Implicit Types (cls : component_class) (this : instance) (w : world).

Lemma setState_preserves u this w :
  trace (setState u this w).2 = trace w
  ∧ ∀ this', (setState u this w).1 = Some this' →
             _handlers this' = _handlers this
             ∧ props this' = props this
             ∧ context this' = context this.
Proof.
  unfold setState, bind, ret, run_alloc, object_literal, throw.
  destruct u as [v|f]; simpl.
  - destruct v; simpl; split; try reflexivity;
      first [intros ? [= <-]; auto | intros ? [=]].
  - destruct (f (state this) (props this) (next w)) as [[v n]|]; simpl;
      [|split; [reflexivity|intros ? [=]]].
    destruct v; simpl; split; try reflexivity; intros ? [= <-]; auto.
Qed.

Lemma render_passes_handlers cls this w :
  ∃ calls, trace (render cls this w).2 = trace w ++ calls
           ∧ Forall (passes_handlers (_handlers this)) calls.
Proof.
  rewrite render_trace.
  destruct (is_function (renderer cls this)); eexists; split; try reflexivity.
  - constructor; [|constructor]. simpl. intros k v Hk.
    rewrite lookup_payload, Hk. reflexivity.
  - constructor.
Qed.

Lemma do_step_invariant cls s this w :
  _handlers (do_step cls s this w).1 = _handlers this
  ∧ ∃ calls, trace (do_step cls s this w).2 = trace w ++ calls
             ∧ Forall (passes_handlers (_handlers this)) calls.
Proof.
  destruct s as [|u|p ctx]; simpl.
  - split; [reflexivity|]. apply render_passes_handlers.
  - destruct (setState_preserves u this w) as [Ht Hh].
    destruct (setState u this w) as [[this'|] w']; simpl in *.
    + split; [apply Hh; reflexivity|].
      exists []. rewrite app_nil_r. auto.
    + split; [reflexivity|]. exists []. rewrite app_nil_r. auto.
  - split; [reflexivity|]. exists []. rewrite app_nil_r. auto.
Qed.

Lemma lifetime_invariant cls steps : ∀ this w,
  _handlers (lifetime cls steps this w).1 = _handlers this
  ∧ ∃ calls, trace (lifetime cls steps this w).2 = trace w ++ calls
             ∧ Forall (passes_handlers (_handlers this)) calls.
Proof.
  induction steps as [|s rest IH]; intros this w; simpl.
  - split; [reflexivity|]. exists []. rewrite app_nil_r. auto.
  - destruct (do_step_invariant cls s this w) as (Hh & c1 & Ht1 & Hc1).
    destruct (do_step cls s this w) as [this1 w1]; simpl in *.
    destruct (IH this1 w1) as (Hh' & c2 & Ht2 & Hc2).
    split; [congruence|].
    exists (c1 ++ c2). rewrite Ht2, Ht1, app_assoc. split; [reflexivity|].
    apply Forall_app. split; [assumption|]. rewrite <- Hh. assumption.
Qed.

Lemma calls_are_not_getters h (calls : list event) :
  Forall (passes_handlers h) calls → occurrences is_GetHandlers calls = 0.
Proof.
  induction 1 as [|e rest He _ IH]; [reflexivity|].
  change (e :: rest) with ([e] ++ rest).
  rewrite occurrences_app, occurrences_one, IH.
  destruct e; simpl in *; try contradiction; reflexivity.
Qed.

(** C4. The handlers getter is evaluated exactly once, by the
    constructor, and its result stored.  Whatever happens to the instance
    afterwards (any number of renders, state changes, new properties)
    the getter is not evaluated again, the stored value stays, and every
    render hands each handler over as the very value that was stored:
    the identity of a handler function never changes. *)
Theorem handlers_evaluated_once_and_stable cls p w this w1 steps :
  construct cls p w = (Some this, w1) →
  let this2 := (lifetime cls steps this w1).1 in
  let w2 := (lifetime cls steps this w1).2 in
  occurrences is_GetHandlers (trace w1)
    = S (occurrences is_GetHandlers (trace w))
  ∧ (∃ n n', handlers cls (with_state (Component p) (state this)) n
             = Some (_handlers this, n'))
  ∧ occurrences is_GetHandlers (trace w2)
      = occurrences is_GetHandlers (trace w1)
  ∧ _handlers this2 = _handlers this
  ∧ ∃ calls, trace w2 = trace w1 ++ calls
             ∧ Forall (passes_handlers (_handlers this)) calls.
Proof.
  intros Hc this2 w2.
  destruct (construct_inv _ _ _ _ _ Hc) as (s & ws & n & Hs & Hh & Hthis & Hw).
  destruct (lifetime_invariant cls steps this w1) as (Hsame & calls & Ht & Hcalls).
  fold this2 in Hsame. fold w2 in Ht.
  split; [|split; [|split; [|split]]].
  - rewrite Hw. simpl. rewrite occurrences_app, occurrences_one. simpl.
    rewrite (initial_state_trace _ _ _ _ _ Hs). lia.
  - exists (next ws), n. rewrite Hthis. simpl. exact Hh.
  - rewrite Ht, occurrences_app, (calls_are_not_getters _ _ Hcalls). lia.
  - exact Hsame.
  - exists calls. auto.
Qed.

End lifetime.

(** The witness of C4: [SimpleState] rendered, its state changed by its
    own handler, and rendered again. *)
Lemma handlers_evaluated_once_and_stable_witness :
  let p : gmap string value := {["render" := Presenter]} in
  let this := Instance p (VObj 100 {["foo" := VStr "bar"]})
                       (VObj 101 {["set" := VFun 102 "set" set_body]})
                       VUndefined in
  let w1 := World 103 [GetInitialState; GetHandlers] in
  let steps := [Render; SetState (Partial (VObj 50 {["foo" := VStr "qux"]}));
                Render] in
  construct SimpleState p w0 = (Some this, w1)
  ∧ occurrences is_GetHandlers
      (trace (@lifetime presenters SimpleState steps this w1).2) = 1
  ∧ _handlers (@lifetime presenters SimpleState steps this w1).1
      = _handlers this.
Proof.
  intros p this w1 steps.
  assert (Hc : construct SimpleState p w0 = (Some this, w1))
    by (vm_compute; reflexivity).
  destruct (@handlers_evaluated_once_and_stable presenters
              SimpleState p w0 this w1 steps Hc) as (H1 & _ & H2 & H3 & _).
  split; [exact Hc|]. split; [|exact H3].
  rewrite H2, H1. reflexivity.
Defined.

(* ===================================================================== *)
(** ** Composition *)
(* ===================================================================== *)

Section composition.

Context `{UserCode}.

Implicit Types (C : component_class) (P : value) (p : gmap string value).

Lemma withRender_truthy C P :
  to_boolean P = true → withRender C P = Combined C P.
Proof. unfold withRender. intros ->. reflexivity. Qed.

Lemma withRender_falsy C P :
  to_boolean P = false → withRender C P = Bound C.
Proof. unfold withRender. intros ->. reflexivity. Qed.

Lemma elem_of_RESERVED_PROPS k :
  k ∈ RESERVED_PROPS
  ↔ k = "key" ∨ k = "ref" ∨ k = "__self" ∨ k = "__source".
Proof.
  unfold RESERVED_PROPS. rewrite !elem_of_cons, elem_of_nil. tauto.
Qed.

Lemma lookup_without_reserved (config : gmap string value) k :
  without_reserved config !! k =
    if bool_decide (k ∈ RESERVED_PROPS) then None else config !! k.
Proof.
  unfold without_reserved. rewrite !lookup_delete.
  case_bool_decide as Hin; rewrite elem_of_RESERVED_PROPS in Hin;
    repeat case_decide; subst; try done.
  all: exfalso; intuition congruence.
Qed.

Lemma lookup_without_reserved_ne (config : gmap string value) k :
  k ∉ RESERVED_PROPS → without_reserved config !! k = config !! k.
Proof.
  intros Hk. rewrite lookup_without_reserved.
  rewrite bool_decide_eq_false_2 by exact Hk. reflexivity.
Qed.

Lemma children_not_reserved : "children" ∉ RESERVED_PROPS.
Proof. rewrite elem_of_RESERVED_PROPS. intuition discriminate. Qed.

Lemma render_not_reserved : "render" ∉ RESERVED_PROPS.
Proof. rewrite elem_of_RESERVED_PROPS. intuition discriminate. Qed.

Lemma Combined_call_props C P p :
  element_props (Combined_call C P p)
  = without_reserved (p ∪ {["render" := P]}).
Proof.
  unfold Combined_call, createElement. simpl.
  rewrite assign_empty_l. reflexivity.
Qed.

Lemma Combined_call_lookup C P p k :
  k ∉ RESERVED_PROPS →
  element_props (Combined_call C P p) !! k =
    match p !! k with
    | Some v => Some v
    | None => if decide (k = "render") then Some P else None
    end.
Proof.
  intros Hres.
  rewrite Combined_call_props, lookup_without_reserved_ne by exact Hres.
  rewrite lookup_union.
  destruct (p !! k) as [v|] eqn:Hk.
  - destruct ({["render" := P]} !! k); reflexivity.
  - case_decide as Hr.
    + subst k. rewrite lookup_singleton_eq. reflexivity.
    + rewrite lookup_singleton_ne by congruence. reflexivity.
Qed.

(** C2, as the code has it.  The component made by withRender from a
    container and a presenter constructs that container with the
    caller's properties written over render = Presenter, less the names
    the host keeps for itself (key, ref, __self, __source), which never
    reach the container: every other property than render is passed
    through, a render property of the caller replaces the presenter, and
    when the caller passes none the element is the container with render
    forced to the presenter, and renders as such. *)
Theorem Combined_puts_props_over_presenter C P p :
  to_boolean P = true →
  let e := Combined_call C P p in
  withRender C P = Combined C P
  ∧ type e = C
  ∧ element_props e = without_reserved (p ∪ {["render" := P]})
  ∧ (∀ k, k ≠ "render" → k ∉ RESERVED_PROPS →
          element_props e !! k = p !! k)
  ∧ (∀ k, k ∈ RESERVED_PROPS → element_props e !! k = None)
  ∧ (∀ g, p !! "render" = Some g → element_props e !! "render" = Some g)
  ∧ (p !! "render" = None →
     element_props e !! "render" = Some P
     ∧ e = createElement C (<["render" := P]> p)
     ∧ ∀ ctx w, mount e ctx w
                = mount (createElement C (<["render" := P]> p)) ctx w).
Proof.
  intros HP e. subst e.
  split; [apply withRender_truthy, HP|].
  split; [reflexivity|].
  split; [apply Combined_call_props|].
  split; [|split; [|split]].
  - intros k Hk Hres. rewrite Combined_call_lookup by exact Hres.
    destruct (p !! k); [reflexivity|]. rewrite decide_False by exact Hk.
    reflexivity.
  - intros k Hres. rewrite Combined_call_props, lookup_without_reserved.
    rewrite bool_decide_eq_true_2 by exact Hres. reflexivity.
  - intros g Hg.
    rewrite Combined_call_lookup by exact render_not_reserved.
    rewrite Hg. reflexivity.
  - intros Hnone.
    assert (He : Combined_call C P p = createElement C (<["render" := P]> p)).
    { unfold Combined_call. f_equal. rewrite assign_empty_l. unfold assign.
      apply map_eq. intros k. rewrite lookup_union, lookup_insert.
      case_decide as Hk.
      - subst k. rewrite Hnone, lookup_singleton_eq. reflexivity.
      - rewrite lookup_singleton_ne by exact Hk.
        destruct (p !! k); reflexivity. }
    split; [|split; [exact He|]].
    + rewrite Combined_call_lookup by exact render_not_reserved.
      rewrite Hnone. reflexivity.
    + intros ctx w. rewrite He. reflexivity.
Qed.

(** C6. withRender with the presenter left out returns a function, and
    that function applied to a presenter returns the very component
    the two-argument call returns; so whatever properties the two are
    called with, they produce the same element, which renders the
    same. *)
Theorem withRender_is_curried C P :
  withRender C VUndefined = Bound C
  ∧ call_composed (withRender C VUndefined) P
      = Returned_function (withRender C P)
  ∧ (∀ arg, call_again (call_composed (withRender C VUndefined) P) arg
            = Some (call_composed (withRender C P) arg))
  ∧ (to_boolean P = true →
     ∀ l p, ∃ e1 e2,
       call_again (call_composed (withRender C VUndefined) P) (VObj l p)
         = Some (Returned_element e1)
       ∧ call_composed (withRender C P) (VObj l p) = Returned_element e2
       ∧ e1 = e2
       ∧ e2 = Combined_call C P p
       ∧ ∀ ctx w, mount e1 ctx w = mount e2 ctx w).
Proof.
  split; [reflexivity|]. split; [reflexivity|]. split; [reflexivity|].
  intros HP l p. exists (Combined_call C P p), (Combined_call C P p).
  simpl. rewrite (withRender_truthy _ _ HP). simpl. auto.
Qed.

(** C9. Which of its two results withRender returns depends on the
    truthiness of the second argument alone: null, false, 0, NaN and the
    empty string, though passed, give what the one-argument call gives,
    the bound factory, and not a component. *)
Theorem withRender_dispatches_on_falsiness C :
  withRender C VUndefined = Bound C
  ∧ withRender C VNull = withRender C VUndefined
  ∧ withRender C (VBool false) = withRender C VUndefined
  ∧ withRender C (VNum 0) = withRender C VUndefined
  ∧ withRender C (VStr "") = withRender C VUndefined
  ∧ withRender C VNaN = withRender C VUndefined
  ∧ ∀ P, withRender C P
         = if to_boolean P then Combined C P else withRender C VUndefined.
Proof.
  repeat split. intros P. unfold withRender.
  destruct (to_boolean P); reflexivity.
Qed.

(** C10. A caller of a composed component who passes a truthy nested
    content overrides the presenter bound at composition: the container
    constructed from the element resolves its rendering target to the
    caller's children, and a render calls that function. *)
Theorem children_override_bound_presenter C P p c :
  to_boolean P = true →
  p !! "children" = Some c →
  to_boolean c = true →
  let e := Combined_call C P p in
  call_composed (withRender C P) (VObj 0 p) = Returned_element e
  ∧ ∀ w this w1 ctx,
      construct (type e) (element_props e) w = (Some this, w1) →
      let mounted := receive this (props this) ctx in
      renderer (type e) mounted = c
      ∧ mount e ctx w
        = invoke c [VObj (next w1) (payload mounted); ctx]
                 (World (S (next w1)) (trace w1)).
Proof.
  intros HP Hc Ht e.
  split; [rewrite (withRender_truthy _ _ HP); reflexivity|].
  intros w this w1 ctx Hcon mounted.
  assert (Hprops : props this = element_props e).
  { destruct (construct_inv _ _ _ _ _ Hcon) as (s & ws & n & _ & _ & -> & _).
    reflexivity. }
  assert (Hg : get (element_props e) "children" = c).
  { unfold get. subst e.
    rewrite Combined_call_lookup by exact children_not_reserved.
    rewrite Hc. reflexivity. }
  assert (Hr : renderer (type e) mounted = c).
  { unfold renderer, or_else.
    change (props mounted) with (props this).
    rewrite Hprops, Hg, Ht. cbn match. rewrite Ht. reflexivity. }
  split; [exact Hr|].
  unfold mount, bind. rewrite Hcon. fold mounted.
  rewrite render_unfold, Hr. reflexivity.
Qed.

End composition.

(** The witness of C2: a caller without a render property who passes a
    key, and a caller with a render property. *)
Lemma Combined_puts_props_over_presenter_witness :
  let p : gmap string value := {["other" := VNum 1; "key" := VStr "k"]} in
  let q : gmap string value := {["render" := Other]} in
  withRender SimpleState Presenter = Combined SimpleState Presenter
  ∧ Combined_call SimpleState Presenter p
      = createElement SimpleState (<["render" := Presenter]> p)
  ∧ element_props (Combined_call SimpleState Presenter p) !! "render"
      = Some Presenter
  ∧ element_props (Combined_call SimpleState Presenter p) !! "other"
      = Some (VNum 1)
  ∧ element_props (Combined_call SimpleState Presenter p) !! "key" = None
  ∧ element_props (Combined_call SimpleState Presenter q) !! "render"
      = Some Other.
Proof.
  intros p q.
  destruct (@Combined_puts_props_over_presenter presenters
              SimpleState Presenter p eq_refl)
    as (Hw & _ & _ & Hpass & Hres & _ & Hforced).
  destruct (@Combined_puts_props_over_presenter presenters
              SimpleState Presenter q eq_refl)
    as (_ & _ & _ & _ & _ & Hcaller & _).
  destruct (Hforced eq_refl) as (Hrender & He & _).
  split; [exact Hw|]. split; [exact He|]. split; [exact Hrender|].
  split; [|split].
  - rewrite Hpass; [reflexivity|discriminate|].
    rewrite elem_of_RESERVED_PROPS. intuition discriminate.
  - apply Hres. rewrite elem_of_RESERVED_PROPS. auto.
  - apply Hcaller. reflexivity.
Defined.

(** C2 as the spec words it fails: the caller's render property, not the
    presenter, reaches the container, and the composed component does not
    render as the container with render forced to the presenter does. *)
Lemma caller_render_replaces_presenter :
  let p : gmap string value := {["render" := Other]} in
  let composed := Combined_call SimpleState Presenter p in
  let forced := createElement SimpleState (<["render" := Presenter]> p) in
  to_boolean Presenter = true
  ∧ element_props composed !! "render" = Some Other
  ∧ element_props forced !! "render" = Some Presenter
  ∧ (@mount presenters composed VUndefined w0).1 = Some (VStr "other")
  ∧ (@mount presenters forced VUndefined w0).1 = Some (VStr "bar")
  ∧ ¬ presenter_always_wins.
Proof.
  intros p composed forced.
  split; [reflexivity|].
  split; [vm_compute; reflexivity|].
  split; [vm_compute; reflexivity|].
  split; [vm_compute; reflexivity|].
  split; [vm_compute; reflexivity|].
  intros Hspec. specialize (Hspec SimpleState Presenter p eq_refl).
  vm_compute in Hspec. discriminate Hspec.
Qed.

(** The witness of C6. *)
Lemma withRender_is_curried_witness :
  let p : gmap string value := {["other" := VNum 1]} in
  call_again (call_composed (withRender SimpleState VUndefined) Presenter)
             (VObj 0 p)
    = Some (Returned_element (Combined_call SimpleState Presenter p)).
Proof.
  intros p.
  destruct (@withRender_is_curried presenters SimpleState Presenter)
    as (_ & _ & _ & Hc).
  destruct (Hc eq_refl 0 p) as (e1 & e2 & H1 & _ & -> & -> & _).
  exact H1.
Defined.

(** The witness of C10: the README's [SimpleState] composed with
    [Presenter] and called with [Other] as nested content. *)
Lemma children_override_bound_presenter_witness :
  let p : gmap string value := {["children" := Other]} in
  let e := Combined_call SimpleState Presenter p in
  let this := Instance (element_props e)
                       (VObj 100 {["foo" := VStr "bar"]})
                       (VObj 101 {["set" := VFun 102 "set" set_body]})
                       VUndefined in
  renderer SimpleState (receive this (props this) VNull) = Other
  ∧ (@mount presenters e VNull w0).1 = Some (VStr "other").
Proof.
  intros p e this.
  assert (Hc : construct (type e) (element_props e) w0
               = (Some this, World 103 [GetInitialState; GetHandlers]))
    by (vm_compute; reflexivity).
  destruct (@children_override_bound_presenter presenters
              SimpleState Presenter p Other eq_refl eq_refl eq_refl)
    as [_ Hover].
  destruct (Hover w0 this _ VNull Hc) as [Hr Hm].
  split; [exact Hr|]. unfold e. rewrite Hm. reflexivity.
Defined.

(* ===================================================================== *)
(** ** State changes *)
(* ===================================================================== *)

Section state_changes.

Implicit Types (this : instance) (w : world) (k : string) (v : value).

Lemma setState_object this w l (partialState : gmap string value) :
  setState (Partial (VObj l partialState)) this w
  = (Some (with_state this
             (VObj (next w) (partialState ∪ own_props (state this)))),
     World (S (next w)) (trace w)).
Proof.
  unfold setState, bind, ret, object_literal. simpl.
  rewrite assign_empty_l. reflexivity.
Qed.

Lemma reducer_unknown plus minus type :
  type ≠ "foo:update" → type ≠ "bar:inc" → type ≠ "bar:dec" →
  reducer plus minus !! type = None.
Proof.
  intros H1 H2 H3. unfold reducer.
  rewrite !lookup_insert_ne by congruence.
  apply lookup_singleton_ne. congruence.
Qed.

(** C7.  A state change with a partial state is a shallow merge: the new
    state has the keys of the partial state with its values and every
    other key of the old state with its old value.  So the README's
    handler [set k v] leaves k at v and the rest as it was, an empty
    partial state leaves every key as it was, and so does the README's
    [action] on a type its table does not know. *)
Theorem setState_is_shallow_merge this w :
  (∀ l (partialState : gmap string value), ∃ merged,
     setState (Partial (VObj l partialState)) this w
       = (Some (with_state this (VObj (next w) merged)),
          World (S (next w)) (trace w))
     ∧ ∀ k, merged !! k = match partialState !! k with
                          | Some v => Some v
                          | None => own_props (state this) !! k
                          end)
  ∧ (∀ k v, ∃ merged,
       set k v this w
         = (Some (with_state this (VObj (S (next w)) merged)),
            World (S (S (next w))) (trace w))
       ∧ merged !! k = Some v
       ∧ ∀ k', k' ≠ k → merged !! k' = own_props (state this) !! k')
  ∧ (∀ l, setState (Partial (VObj l ∅)) this w
          = (Some (with_state this (VObj (next w) (own_props (state this)))),
             World (S (next w)) (trace w)))
  ∧ (∀ plus minus inherited type payload,
       type ≠ "foo:update" → type ≠ "bar:inc" → type ≠ "bar:dec" →
       type ∉ Object_prototype_names →
       action plus minus inherited type payload this w
         = (Some (with_state this
                    (VObj (S (next w)) (own_props (state this)))),
            World (S (S (next w))) (trace w))).
Proof.
  split; [|split; [|split]].
  - intros l partialState. eexists. split; [apply setState_object|].
    intros k. rewrite lookup_union.
    destruct (partialState !! k), (own_props (state this) !! k); reflexivity.
  - intros k v. exists ({[k := v]} ∪ own_props (state this)).
    split; [unfold set, bind at 1; simpl; rewrite setState_object;
            reflexivity|].
    split.
    + rewrite lookup_union, lookup_singleton_eq.
      destruct (own_props (state this) !! k); reflexivity.
    + intros k' Hk. rewrite lookup_union, lookup_singleton_ne by congruence.
      destruct (own_props (state this) !! k'); reflexivity.
  - intros l. rewrite setState_object. rewrite (left_id_L ∅ (∪)).
    reflexivity.
  - intros plus minus inherited type payload H1 H2 H3 Hproto.
    unfold action, reducer_at.
    rewrite (reducer_unknown _ _ _ H1 H2 H3).
    rewrite bool_decide_eq_false_2 by exact Hproto.
    unfold bind at 1. simpl. rewrite setState_object.
    simpl. rewrite (left_id_L ∅ (∪)). reflexivity.
Qed.

End state_changes.

(** The witness of C7: the README's reducer, started as there, sent an
    action type it does not know. *)
Lemma setState_is_shallow_merge_witness :
  let s : gmap string value := {["foo" := VStr ""; "bar" := VNum 0]} in
  let this := Instance ∅ (VObj 7 s) VUndefined VUndefined in
  action (λ _ _, VNaN) (λ _ _, VNaN) (λ _ _, throw) "baz:reset" VUndefined
         this w0
  = (Some (with_state this (VObj 101 s)), World 102 []).
Proof.
  intros s this.
  destruct (setState_is_shallow_merge this w0) as (_ & _ & _ & Hunknown).
  apply Hunknown; try discriminate.
  unfold Object_prototype_names. rewrite !elem_of_cons, elem_of_nil.
  intros Hin. repeat (destruct Hin as [Hin|Hin]; [discriminate Hin|]).
  exact Hin.
Defined.

(* ===================================================================== *)
(** ** The README's examples, run *)
(* ===================================================================== *)

(** The README's first example: [SimpleState] given an initialState
    renders baz, and the payload is the other property, the state and
    the handler, nothing else. *)
Example README_SimpleState_renders_baz :
  let p : gmap string value :=
    {["initialState" := VObj 7 {["foo" := VStr "baz"]};
      "other" := VNum 1; "render" := Presenter]} in
  let this := Instance p (VObj 7 {["foo" := VStr "baz"]})
                       (VObj 100 {["set" := VFun 101 "set" set_body]})
                       VUndefined in
  construct SimpleState p w0 = (Some this, World 102 [GetHandlers])
  ∧ payload this
      = {["other" := VNum 1; "foo" := VStr "baz";
          "set" := VFun 101 "set" set_body]}
  ∧ (@mount presenters (createElement SimpleState p) VUndefined w0).1
      = Some (VStr "baz").
Proof. repeat split; vm_compute; reflexivity. Qed.

(** Were the getter evaluated again, the handler would be another
    function: each evaluation allocates its arrow function anew. *)
Example handlers_getter_allocates this n h1 n1 h2 n2 :
  handlers SimpleState this n = Some (h1, n1) →
  handlers SimpleState this n1 = Some (h2, n2) →
  strict_equal (get (own_props h1) "set") (get (own_props h2) "set") = false.
Proof.
  simpl. intros [= <- <-] [= <- <-]. simpl.
  unfold get. rewrite !lookup_singleton_eq. simpl.
  apply bool_decide_eq_false. lia.
Qed.

(** A string spreads into its characters. *)
Example spread_of_a_string :
  own_props (VStr "ab") = {["0" := VStr "a"; "1" := VStr "b"]}.
Proof. vm_compute. reflexivity. Qed.

(* ===================================================================== *)
(** ** More about rendering *)
(* ===================================================================== *)

Section more_rendering.

Context `{UserCode}.

Implicit Types (cls : component_class) (this : instance) (w : world).

Lemma render_not_callable cls this w :
  is_function (renderer cls this) = false →
  render cls this w = (None, World (S (next w)) (trace w)).
Proof.
  intros Hf. rewrite render_unfold.
  destruct (renderer cls this); try reflexivity. discriminate Hf.
Qed.

Lemma render_callable cls this w l n b :
  renderer cls this = VFun l n b →
  render cls this w =
    (run_body b [VObj (next w) (payload this); context this],
     World (S (next w))
           (trace w ++ [Call (VFun l n b)
                          [VObj (next w) (payload this); context this]])).
Proof. intros Hr. rewrite render_unfold, Hr. reflexivity. Qed.

(** X1. The rendering target is chosen by truthiness, not by being a
    function: a truthy nested content that is not a function makes
    render throw, whatever the render property is, and so does a truthy
    render property that is not a function behind a falsy nested
    content.  Nothing is called, the payload object has been
    allocated. *)
Theorem render_throws_on_truthy_non_function cls this w :
  let children := get (props this) "children" in
  let renderProp := get (props this) "render" in
  (to_boolean children = true → is_function children = false →
   render cls this w = (None, World (S (next w)) (trace w)))
  ∧ (to_boolean children = false → to_boolean renderProp = true →
     is_function renderProp = false →
     render cls this w = (None, World (S (next w)) (trace w))).
Proof.
  intros children renderProp. split.
  - intros Ht Hf. apply render_not_callable.
    unfold renderer, or_else. fold children renderProp.
    rewrite Ht. cbn match. rewrite Ht. exact Hf.
  - intros Hc Ht Hf. apply render_not_callable.
    unfold renderer, or_else. fold children renderProp.
    rewrite Hc. cbn match. rewrite Ht. exact Hf.
Qed.

(** X2. The keys of the payload are exactly the keys of the handlers,
    the keys of the state, and the keys of the properties other than
    children, render and initialState: render adds no key of its own and
    drops no other. *)
Theorem payload_keys this :
  dom (payload this)
  = dom (own_props (_handlers this))
    ∪ dom (own_props (state this))
    ∪ (dom (props this) ∖ {["children"; "render"; "initialState"]}).
Proof.
  unfold payload, assign, otherProps.
  rewrite !dom_union_L, !dom_delete_L, dom_empty_L.
  apply set_eq. intros k.
  rewrite !elem_of_union, !elem_of_difference, !elem_of_union,
          !elem_of_singleton, elem_of_empty.
  tauto.
Qed.

(** X3. Properties that pass the declared propTypes resolve, in a class
    whose defaultRender is a function, to a rendering target that is a
    function: render then makes exactly one call, with the payload and
    the context, and returns what that call returns. *)
Theorem propTypes_give_a_callable_target cls this w :
  propTypes (props this) = true →
  is_function (defaultRender cls) = true →
  ∃ l n b,
    renderer cls this = VFun l n b
    ∧ render cls this w =
        (run_body b [VObj (next w) (payload this); context this],
         World (S (next w))
               (trace w ++ [Call (VFun l n b)
                              [VObj (next w) (payload this);
                               context this]])).
Proof.
  unfold propTypes. intros Hp Hd.
  apply andb_prop in Hp as [Hp _]. apply andb_prop in Hp as [Hc Hr].
  assert (Hf : is_function (renderer cls this) = true).
  { unfold renderer, or_else.
    destruct (get (props this) "children"); simpl in *;
      try discriminate Hc; try reflexivity;
      destruct (get (props this) "render"); simpl in *;
        try discriminate Hr; try reflexivity; exact Hd. }
  destruct (renderer cls this) as [| | | | | | |l n b] eqn:Hren;
    try discriminate Hf.
  exists l, n, b. split; [reflexivity|].
  apply render_callable. exact Hren.
Qed.

(** X4. What the presenter of a composed component receives when the
    caller passes no render property and no truthy nested content: a
    new object of the handlers over the state over the caller's
    properties without children and initialState and without the names
    the host keeps for itself (key, ref, __self, __source); the render
    property under which the presenter travelled is not copied into
    it. *)
Theorem composed_component_payload C P p w this w1 ctx :
  to_boolean P = true →
  to_boolean (get p "children") = false →
  p !! "render" = None →
  construct C (element_props (Combined_call C P p)) w = (Some this, w1) →
  mount (Combined_call C P p) ctx w
  = invoke P [VObj (next w1)
                (own_props (_handlers this)
                 ∪ (own_props (state this)
                    ∪ delete "initialState"
                        (delete "children" (without_reserved p))));
              ctx]
           (World (S (next w1)) (trace w1)).
Proof.
  intros HP Hc Hr Hcon.
  assert (Hprops : props this = without_reserved (p ∪ {["render" := P]})).
  { destruct (construct_inv _ _ _ _ _ Hcon) as (s & ws & n & _ & _ & -> & _).
    exact (Combined_call_props C P p). }
  unfold mount, bind. change (type (Combined_call C P p)) with C.
  rewrite Hcon. rewrite render_unfold.
  set (mounted := receive this (props this) ctx).
  assert (Hren : renderer C mounted = P).
  { unfold renderer, or_else. change (props mounted) with (props this).
    rewrite Hprops.
    assert (Hgc : get (without_reserved (p ∪ {["render" := P]})) "children"
                  = get p "children").
    { unfold get.
      rewrite lookup_without_reserved_ne by exact children_not_reserved.
      rewrite lookup_union, lookup_singleton_ne by discriminate.
      destruct (p !! "children"); reflexivity. }
    assert (Hgr : get (without_reserved (p ∪ {["render" := P]})) "render" = P).
    { unfold get.
      rewrite lookup_without_reserved_ne by exact render_not_reserved.
      rewrite lookup_union, Hr, lookup_singleton_eq. reflexivity. }
    rewrite Hgc, Hc. cbn match. rewrite Hgr, HP. reflexivity. }
  assert (Hpay : payload mounted
                 = own_props (_handlers this)
                   ∪ (own_props (state this)
                      ∪ delete "initialState"
                          (delete "children" (without_reserved p)))).
  { unfold payload, otherProps. rewrite assign_empty_l. unfold assign.
    change (props mounted) with (props this). rewrite Hprops.
    change (_handlers mounted) with (_handlers this).
    change (state mounted) with (state this).
    do 2 f_equal. apply map_eq. intros k.
    rewrite !lookup_delete, !lookup_without_reserved.
    destruct (decide ("initialState" = k)) as [Hi|Hi]; [reflexivity|].
    destruct (decide ("children" = k)) as [Hch|Hch].
    - subst k. rewrite decide_False by discriminate. reflexivity.
    - destruct (decide ("render" = k)) as [Hk|Hk].
      + subst k. rewrite Hr. case_bool_decide; reflexivity.
      + case_bool_decide; [reflexivity|].
        rewrite lookup_union, lookup_singleton_ne by congruence.
        destruct (p !! k); reflexivity. }
  change (context mounted) with ctx.
  rewrite Hren, Hpay. reflexivity.
Qed.

End more_rendering.

(** The witness of X1: a text as nested content beside a presenter as
    render property, and a number as render property. *)
Lemma render_throws_on_truthy_non_function_witness :
  let text := Instance {["children" := VStr "text"; "render" := Presenter]}
                       VUndefined VUndefined VUndefined in
  let five := Instance {["render" := VNum 5]}
                       VUndefined VUndefined VUndefined in
  @render presenters SimpleState text w0 = (None, World 101 [])
  ∧ @render presenters SimpleState five w0 = (None, World 101 []).
Proof.
  intros text five. split.
  - apply (proj1 (@render_throws_on_truthy_non_function presenters
                    SimpleState text w0)); reflexivity.
  - apply (proj2 (@render_throws_on_truthy_non_function presenters
                    SimpleState five w0)); reflexivity.
Defined.

(** The witness of X3. *)
Lemma propTypes_give_a_callable_target_witness :
  let this := Instance {["render" := Presenter; "children" := VNull;
                         "initialState" := VObj 7 ∅]}
                       (VObj 7 {["foo" := VStr "baz"]}) VUndefined
                       VUndefined in
  (@render presenters SimpleState this w0).1 = Some (VStr "baz").
Proof.
  intros this.
  destruct (@propTypes_give_a_callable_target presenters
              SimpleState this w0 eq_refl eq_refl) as (l & n & b & Hr & Hrun).
  vm_compute in Hr. injection Hr as <- <- <-.
  rewrite Hrun. reflexivity.
Defined.

(** The witness of X4: the README's composed component with an
    initialState, called with a key among the properties. *)
Lemma composed_component_payload_witness :
  let p : gmap string value :=
    {["initialState" := VObj 7 {["foo" := VStr "baz"]};
      "other" := VNum 1; "key" := VStr "k"]} in
  let this := Instance (element_props (Combined_call SimpleState Presenter p))
                       (VObj 7 {["foo" := VStr "baz"]})
                       (VObj 100 {["set" := VFun 101 "set" set_body]})
                       VUndefined in
  @mount presenters (Combined_call SimpleState Presenter p) VNull w0
  = @invoke presenters Presenter
      [VObj 102 {["set" := VFun 101 "set" set_body; "foo" := VStr "baz";
                  "other" := VNum 1]}; VNull]
      (World 103 [GetHandlers]).
Proof.
  intros p this.
  assert (Hc : construct SimpleState
                 (element_props (Combined_call SimpleState Presenter p)) w0
               = (Some this, World 102 [GetHandlers]))
    by (vm_compute; reflexivity).
  rewrite (@composed_component_payload presenters SimpleState Presenter p
             w0 this _ VNull eq_refl eq_refl eq_refl Hc).
  vm_compute. reflexivity.
Defined.

(* ===================================================================== *)
(** ** More about construction and the life of an instance *)
(* ===================================================================== *)

Section more_construction.

Context `{UserCode}.

Implicit Types (cls : component_class) (this : instance) (w : world).
Implicit Types (p : gmap string value).

Lemma construct_truthy cls p w :
  to_boolean (get p "initialState") = true →
  construct cls p w =
    match handlers cls (with_state (Component p) (get p "initialState"))
                   (next w) with
    | Some (h, n) =>
        (Some (with_handlers
                 (with_state (Component p) (get p "initialState")) h),
         World n (trace w ++ [GetHandlers]))
    | None => (None, World (next w) (trace w ++ [GetHandlers]))
    end.
Proof.
  intros Hv. unfold construct, bind at 1.
  rewrite initial_state_truthy by exact Hv.
  unfold getter, bind, log, run_alloc, ret. simpl.
  destruct (handlers cls _ (next w)) as [[h n]|]; reflexivity.
Qed.

Lemma construct_StateProvider_default p w :
  p !! "initialState" = None →
  construct StateProvider p w
  = (Some (Instance p (VObj (next w) ∅) (VObj (S (next w)) ∅) VUndefined),
     World (S (S (next w))) ((trace w ++ [GetInitialState]) ++ [GetHandlers])).
Proof.
  intros Hp. unfold construct, bind at 1.
  rewrite initial_state_falsy by (simpl; unfold get; rewrite Hp; reflexivity).
  reflexivity.
Qed.

Lemma calls_are_not_initialState h (calls : list event) :
  Forall (passes_handlers h) calls →
  occurrences is_GetInitialState calls = 0.
Proof.
  induction 1 as [|e rest He _ IH]; [reflexivity|].
  change (e :: rest) with ([e] ++ rest).
  rewrite occurrences_app, occurrences_one, IH.
  destruct e; simpl in *; try contradiction; reflexivity.
Qed.

(** X5. The constructor does not copy: the state of a container
    constructed with a mapping as initialState is that very object, so
    two containers constructed from the same properties start out
    sharing one state object.  With no initialState, two constructions
    of the base class evaluate the default getter each time and start
    with two different empty objects. *)
Theorem initial_state_shared_or_fresh p w :
  (∀ cls l S a w1 b w2,
     p !! "initialState" = Some (VObj l S) →
     construct cls p w = (Some a, w1) →
     construct cls p w1 = (Some b, w2) →
     state a = VObj l S ∧ state b = VObj l S
     ∧ strict_equal (state a) (state b) = true)
  ∧ (p !! "initialState" = None →
     ∃ a w1 b w2,
       construct StateProvider p w = (Some a, w1)
       ∧ construct StateProvider p w1 = (Some b, w2)
       ∧ own_props (state a) = ∅ ∧ own_props (state b) = ∅
       ∧ strict_equal (state a) (state b) = false).
Proof.
  split.
  - intros cls l S a w1 b w2 Hp Ha Hb.
    assert (Hv : to_boolean (get p "initialState") = true)
      by (unfold get; rewrite Hp; reflexivity).
    assert (Hg : get p "initialState" = VObj l S)
      by (unfold get; rewrite Hp; reflexivity).
    rewrite construct_truthy in Ha, Hb by exact Hv. rewrite Hg in Ha, Hb.
    destruct (handlers cls _ (next w)) as [[h n]|]; [|discriminate Ha].
    destruct (handlers cls _ (next w1)) as [[h' n']|]; [|discriminate Hb].
    injection Ha as <- _. injection Hb as <- _. simpl.
    repeat split. apply bool_decide_eq_true. reflexivity.
  - intros Hp. eexists _, _, _, _.
    split; [apply construct_StateProvider_default, Hp|].
    split; [apply construct_StateProvider_default, Hp|].
    simpl. repeat split. apply bool_decide_eq_false. lia.
Qed.

Lemma lifetime_keeps_state cls steps : ∀ this w,
  Forall (λ s, is_SetState s = false) steps →
  state (lifetime cls steps this w).1 = state this
  ∧ _handlers (lifetime cls steps this w).1 = _handlers this.
Proof.
  induction steps as [|s rest IH]; intros this w Hall; [split; reflexivity|].
  apply Forall_cons in Hall as [Hs Hrest]. simpl.
  destruct s as [|u|q ctx]; simpl in *; try discriminate Hs.
  - apply IH, Hrest.
  - destruct (IH (receive this q ctx) w Hrest) as [-> ->]. split; reflexivity.
Qed.

(** X6. The constructor reads initialState, render does not.  A
    container constructed with a mapping as initialState and then taken
    through any renders and any new properties, also a new initialState,
    still renders by calling its target with the handlers over the
    mapping it was constructed with over the other properties of the
    day: a later initialState is neither taken as state nor passed
    through. *)
Theorem later_initialState_is_ignored cls p l init w this w1 steps :
  p !! "initialState" = Some (VObj l init) →
  construct cls p w = (Some this, w1) →
  Forall (λ s, is_SetState s = false) steps →
  let later := (lifetime cls steps this w1).1 in
  ∀ w2,
    render cls later w2
    = invoke (renderer cls later)
        [VObj (next w2)
           (own_props (_handlers this) ∪ (init ∪ otherProps later));
         context later]
        (World (S (next w2)) (trace w2))
    ∧ otherProps later !! "initialState" = None
    ∧ ∀ k v, own_props (_handlers this) !! k = None →
             init !! k = Some v → payload later !! k = Some v.
Proof.
  intros Hp Hc Hsteps later w2.
  assert (Hv : to_boolean (get p "initialState") = true)
    by (unfold get; rewrite Hp; reflexivity).
  assert (Hstate : state this = VObj l init).
  { rewrite construct_truthy in Hc by exact Hv.
    destruct (handlers cls _ (next w)) as [[h n]|]; [|discriminate Hc].
    injection Hc as <- _. simpl. unfold get. rewrite Hp. reflexivity. }
  destruct (lifetime_keeps_state cls steps this w1 Hsteps) as [Hs Hh].
  fold later in Hs, Hh. rewrite Hstate in Hs.
  assert (Hpay : payload later
                 = own_props (_handlers this) ∪ (init ∪ otherProps later)).
  { unfold payload. rewrite assign_empty_l, Hs, Hh. reflexivity. }
  split; [rewrite render_unfold, Hpay; reflexivity|].
  split.
  - unfold otherProps. apply lookup_delete_eq.
  - intros k v Hk Hi. rewrite lookup_payload, Hh, Hk, Hs. simpl.
    rewrite Hi. reflexivity.
Qed.

(** X7. The default-state getter is evaluated by the constructor alone,
    once when the initialState property is falsy and not at all when it
    is truthy; nothing in the later life of the instance evaluates it
    again. *)
Theorem initialState_getter_evaluated_by_constructor_only
    cls p w this w1 steps :
  construct cls p w = (Some this, w1) →
  occurrences is_GetInitialState (trace (lifetime cls steps this w1).2)
  = occurrences is_GetInitialState (trace w)
    + (if to_boolean (get p "initialState") then 0 else 1).
Proof.
  intros Hc.
  destruct (construct_inv _ _ _ _ _ Hc) as (s & ws & n & Hs & _ & _ & ->).
  destruct (lifetime_invariant cls steps this
              (World n (trace ws ++ [GetHandlers])))
    as (_ & calls & -> & Hcalls).
  rewrite occurrences_app, (calls_are_not_initialState _ _ Hcalls).
  simpl. rewrite occurrences_app, occurrences_one. simpl.
  change (props (Component p)) with p in *.
  destruct (to_boolean (get p "initialState")) eqn:Hv.
  - rewrite initial_state_truthy in Hs by exact Hv.
    injection Hs as _ <-. lia.
  - rewrite initial_state_falsy in Hs by exact Hv.
    destruct (initialState cls (Component p) (next w)) as [[d m]|];
      [|discriminate Hs].
    injection Hs as _ <-. simpl.
    rewrite occurrences_app, occurrences_one. simpl. lia.
Qed.

(** X8. Getters that throw.  When the initialState property is falsy and
    the default-state getter throws, construction throws before the
    handlers getter is evaluated.  When the property is truthy the
    default-state getter plays no part: construction is the same for any
    two classes with the same handlers getter, and it throws exactly
    when that getter does. *)
Theorem construct_with_throwing_getters cls p w :
  (to_boolean (get p "initialState") = false →
   initialState cls (Component p) (next w) = None →
   construct cls p w = (None, World (next w) (trace w ++ [GetInitialState])))
  ∧ (to_boolean (get p "initialState") = true →
     ∀ cls', handlers cls' = handlers cls →
             construct cls' p w = construct cls p w)
  ∧ (to_boolean (get p "initialState") = true →
     ((construct cls p w).1 = None
      ↔ handlers cls (with_state (Component p) (get p "initialState"))
                 (next w) = None)).
Proof.
  split; [|split].
  - intros Hv Hthrow. unfold construct, bind at 1.
    rewrite initial_state_falsy by exact Hv. rewrite Hthrow. reflexivity.
  - intros Hv cls' Hh. rewrite !construct_truthy by exact Hv.
    rewrite Hh. reflexivity.
  - intros Hv. rewrite construct_truthy by exact Hv.
    destruct (handlers cls _ (next w)) as [[h n]|]; simpl;
      split; intros; congruence.
Qed.

End more_construction.

(** The witness of X5. *)
Lemma initial_state_shared_or_fresh_witness :
  let S : gmap string value := {["foo" := VStr "baz"]} in
  let p : gmap string value := {["initialState" := VObj 7 S]} in
  let handlers_at n := VObj n {["set" := VFun (1 + n) "set" set_body]} in
  let a := Instance p (VObj 7 S) (handlers_at 100) VUndefined in
  let b := Instance p (VObj 7 S) (handlers_at 102) VUndefined in
  strict_equal (state a) (state b) = true
  ∧ ∃ c w1 d w2,
      construct StateProvider ∅ w0 = (Some c, w1)
      ∧ construct StateProvider ∅ w1 = (Some d, w2)
      ∧ strict_equal (state c) (state d) = false.
Proof.
  intros S p handlers_at a b.
  destruct (initial_state_shared_or_fresh p w0) as [Hshared _].
  destruct (initial_state_shared_or_fresh ∅ w0) as [_ Hfresh].
  split.
  - apply (Hshared SimpleState 7 S a (World 102 [GetHandlers])
                   b (World 104 [GetHandlers; GetHandlers]));
      vm_compute; reflexivity.
  - destruct (Hfresh eq_refl) as (c & w1 & d & w2 & Hc & Hd & _ & _ & Hne).
    exists c, w1, d, w2. auto.
Defined.

(** The witness of X6: a new initialState arrives between two renders,
    and the presenter is still shown the first one. *)
Lemma later_initialState_is_ignored_witness :
  let p : gmap string value :=
    {["render" := Presenter;
      "initialState" := VObj 7 {["foo" := VStr "baz"]}]} in
  let q : gmap string value :=
    {["render" := Presenter;
      "initialState" := VObj 9 {["foo" := VStr "qux"]}]} in
  let this := Instance p (VObj 7 {["foo" := VStr "baz"]})
                       (VObj 100 {["set" := VFun 101 "set" set_body]})
                       VUndefined in
  let w1 := World 102 [GetHandlers] in
  let later := (@lifetime presenters SimpleState
                  [Render; Receive q VNull; Render] this w1).1 in
  props later = q
  ∧ (@render presenters SimpleState later w0).1 = Some (VStr "baz").
Proof.
  intros p q this w1 later.
  assert (Hc : construct SimpleState p w0 = (Some this, w1))
    by (vm_compute; reflexivity).
  assert (Hsteps : Forall (λ s, is_SetState s = false)
                          [Render; Receive q VNull; Render])
    by (repeat constructor).
  split; [reflexivity|].
  destruct (@later_initialState_is_ignored presenters SimpleState p 7
              {["foo" := VStr "baz"]} w0 this w1
              [Render; Receive q VNull; Render] eq_refl Hc Hsteps w0)
    as (Hr & _ & _).
  fold later in Hr. rewrite Hr. vm_compute. reflexivity.
Defined.

(** The witness of X7: a construction that needs the default. *)
Lemma initialState_getter_evaluated_by_constructor_only_witness :
  let p : gmap string value := {["render" := Presenter]} in
  let this := Instance p (VObj 100 {["foo" := VStr "bar"]})
                       (VObj 101 {["set" := VFun 102 "set" set_body]})
                       VUndefined in
  let w1 := World 103 [GetInitialState; GetHandlers] in
  occurrences is_GetInitialState
    (trace (@lifetime presenters SimpleState
              [Render; Receive ∅ VNull; Render; Render] this w1).2) = 1.
Proof.
  intros p this w1.
  assert (Hc : construct SimpleState p w0 = (Some this, w1))
    by (vm_compute; reflexivity).
  rewrite (@initialState_getter_evaluated_by_constructor_only presenters
             SimpleState p w0 this w1 _ Hc).
  reflexivity.
Defined.

(** The witness of X8: a class whose default-state getter throws. *)
Lemma construct_with_throwing_getters_witness :
  let Broken := ComponentClass "Broken" (λ _ _, None)
                               (handlers SimpleState)
                               (defaultRender StateProvider) in
  let p : gmap string value := {["initialState" := VObj 7 ∅]} in
  construct Broken ∅ w0 = (None, World 100 [GetInitialState])
  ∧ construct Broken p w0 = construct SimpleState p w0
  ∧ (construct Broken p w0).1 ≠ None.
Proof.
  intros Broken p.
  destruct (construct_with_throwing_getters Broken ∅ w0) as (Hthrow & _ & _).
  destruct (construct_with_throwing_getters SimpleState p w0)
    as (_ & Hsame & _).
  destruct (construct_with_throwing_getters Broken p w0) as (_ & _ & Hiff).
  split; [apply Hthrow; reflexivity|].
  split; [apply Hsame; reflexivity|].
  intros Hnone. apply (Hiff eq_refl) in Hnone. discriminate Hnone.
Defined.

(* ===================================================================== *)
(** ** More about composition *)
(* ===================================================================== *)

Section more_composition.

Context `{UserCode}.

Implicit Types (C : component_class) (P : value) (p : gmap string value).

(** X9. The factory returned by the one-argument call stays a factory
    under falsy arguments: called any number of times with falsy values
    and then with a presenter, it returns what the two-argument call
    with that presenter returns. *)
Theorem factory_skips_falsy_arguments C falsies P :
  Forall (λ a, to_boolean a = false) falsies →
  call_all (Returned_function (withRender C VUndefined)) (falsies ++ [P])
  = Some (Returned_function (withRender C P)).
Proof.
  induction 1 as [|a rest Ha _ IH]; [reflexivity|].
  simpl. rewrite (withRender_falsy _ _ Ha). exact IH.
Qed.

(** X10. The README's other way of composing, nested content written
    into the element, cannot be overridden by the caller: whatever
    children or render the caller passes, the container renders with
    [Input], which receives the [setText] handler. *)
Theorem TextInput_renders_with_Input Input p w this w1 ctx :
  to_boolean Input = true →
  construct (type (TextInput Input p)) (element_props (TextInput Input p)) w
    = (Some this, w1) →
  let mounted := receive this (props this) ctx in
  renderer Text mounted = Input
  ∧ mount (TextInput Input p) ctx w
    = invoke Input [VObj (next w1) (payload mounted); ctx]
             (World (S (next w1)) (trace w1))
  ∧ ∃ l, payload mounted !! "setText" = Some (VFun l "setText" setText_body).
Proof.
  intros HI Hcon mounted.
  change (type (TextInput Input p)) with Text in *.
  destruct (construct_inv _ _ _ _ _ Hcon) as (s & ws & n & _ & Hh & Hthis & _).
  assert (Hprops : props this = <["children" := Input]> (without_reserved p)).
  { rewrite Hthis. simpl. rewrite assign_empty_l. reflexivity. }
  assert (Hr : renderer Text mounted = Input).
  { unfold renderer, or_else. change (props mounted) with (props this).
    rewrite Hprops.
    assert (Hg : get (<["children" := Input]> (without_reserved p))
                     "children" = Input)
      by (unfold get; rewrite lookup_insert_eq; reflexivity).
    rewrite Hg, HI. cbn match. rewrite HI. reflexivity. }
  split; [exact Hr|]. split.
  - unfold mount, bind. change (type (TextInput Input p)) with Text.
    rewrite Hcon. fold mounted. rewrite render_unfold, Hr. reflexivity.
  - simpl in Hh. injection Hh as Hh _. exists (S (next ws)).
    rewrite lookup_payload. change (_handlers mounted) with (_handlers this).
    rewrite <- Hh. simpl. rewrite lookup_singleton_eq. reflexivity.
Qed.

End more_composition.

(** The witness of X9. *)
Lemma factory_skips_falsy_arguments_witness :
  call_all (Returned_function (withRender SimpleState VUndefined))
           [VNull; VNum 0; VStr ""; Presenter]
  = Some (Returned_function (Combined SimpleState Presenter)).
Proof.
  apply (factory_skips_falsy_arguments SimpleState
           [VNull; VNum 0; VStr ""] Presenter).
  repeat constructor.
Defined.

(** The witness of X10: a caller passing both children and render. *)
Lemma TextInput_renders_with_Input_witness :
  let p : gmap string value := {["children" := Other; "render" := Other]} in
  let e := TextInput Presenter p in
  let this := Instance (element_props e) (VObj 100 ∅)
                (VObj 101 {["setText" := VFun 102 "setText" setText_body]})
                VUndefined in
  renderer Text (receive this (props this) VNull) = Presenter.
Proof.
  intros p e this.
  assert (Hc : construct (type e) (element_props e) w0
               = (Some this, World 103 [GetInitialState; GetHandlers]))
    by (vm_compute; reflexivity).
  apply (@TextInput_renders_with_Input presenters Presenter p w0 this _ VNull
           eq_refl Hc).
Defined.

(* ===================================================================== *)
(** ** The README's handlers at work *)
(* ===================================================================== *)

Section handlers_at_work.

Implicit Types (this : instance) (w : world) (v : value).

Lemma setState_object_insert this w l k v :
  setState (Partial (VObj l {[k := v]})) this w
  = (Some (with_state this (VObj (next w) (<[k := v]> (own_props (state this))))),
     World (S (next w)) (trace w)).
Proof.
  rewrite setState_object, <- insert_union_singleton_l. reflexivity.
Qed.

Lemma destructure_Some v k :
  v ≠ VUndefined → v ≠ VNull → destructure v k = Some (get (own_props v) k).
Proof. destruct v; intros; try reflexivity; congruence. Qed.

(** X11. The README's reducer on the action types it knows.  foo:update
    with a payload that is not null or undefined sets foo to the foo
    property of the payload; bar:inc and bar:dec set bar to the old bar
    plus or minus one; each keeps every other key.  foo:update on a null
    or undefined payload throws while taking the payload apart, before
    any state change. *)
Theorem Reducer_known_actions plus minus inherited this w payload :
  (payload ≠ VUndefined → payload ≠ VNull →
   action plus minus inherited "foo:update" payload this w
   = (Some (with_state this
              (VObj (S (next w))
                 (<["foo" := get (own_props payload) "foo"]>
                    (own_props (state this))))),
      World (S (S (next w))) (trace w)))
  ∧ (payload = VUndefined ∨ payload = VNull →
     action plus minus inherited "foo:update" payload this w = (None, w))
  ∧ (state this ≠ VUndefined → state this ≠ VNull →
     action plus minus inherited "bar:inc" payload this w
     = (Some (with_state this
                (VObj (S (next w))
                   (<["bar" := plus (get (own_props (state this)) "bar")
                                    (VNum 1)]>
                      (own_props (state this))))),
        World (S (S (next w))) (trace w))
     ∧ action plus minus inherited "bar:dec" payload this w
       = (Some (with_state this
                  (VObj (S (next w))
                     (<["bar" := minus (get (own_props (state this)) "bar")
                                       (VNum 1)]>
                        (own_props (state this))))),
          World (S (S (next w))) (trace w))).
Proof.
  split; [|split].
  - intros H1 H2. unfold action, reducer_at, reducer.
    rewrite lookup_insert_eq. unfold bind at 1.
    rewrite (destructure_Some _ _ H1 H2). unfold bind at 1. simpl.
    rewrite setState_object_insert. reflexivity.
  - intros [-> | ->]; reflexivity.
  - intros H1 H2. split.
    + unfold action, reducer_at, reducer.
      rewrite lookup_insert_ne by discriminate. rewrite lookup_insert_eq.
      unfold bind at 1. simpl. unfold setState, bind at 1, run_alloc.
      rewrite (destructure_Some _ _ H1 H2). simpl.
      unfold bind, object_literal, ret. simpl.
      rewrite assign_empty_l. unfold assign.
      rewrite <- insert_union_singleton_l. reflexivity.
    + unfold action, reducer_at, reducer.
      rewrite !lookup_insert_ne by discriminate.
      rewrite lookup_singleton_eq.
      unfold bind at 1. simpl. unfold setState, bind at 1, run_alloc.
      rewrite (destructure_Some _ _ H1 H2). simpl.
      unfold bind, object_literal, ret. simpl.
      rewrite assign_empty_l. unfold assign.
      rewrite <- insert_union_singleton_l. reflexivity.
Qed.

(** X12. A text box at work: after the README's [setText] has handled an
    event with a target, the payload of the next render carries the
    target's value under text, unless a handler of that name hides it,
    and every other key as before.  An event that is null or undefined
    makes the handler throw and changes nothing. *)
Theorem setText_shows_in_the_next_payload e target x this w :
  destructure e "target" = Some target →
  destructure target "value" = Some x →
  own_props (_handlers this) !! "text" = None →
  ∃ this',
    setText e this w = (Some this', World (S (S (next w))) (trace w))
    ∧ payload this' !! "text" = Some x
    ∧ (∀ k, k ≠ "text" → payload this' !! k = payload this !! k)
    ∧ setText VUndefined this w = (None, w)
    ∧ setText VNull this w = (None, w).
Proof.
  intros He Ht Hh. eexists. split.
  - unfold setText. rewrite He, Ht. unfold bind at 1. simpl.
    rewrite setState_object_insert. reflexivity.
  - split; [|split; [|split; reflexivity]].
    + rewrite lookup_payload. simpl. rewrite Hh, lookup_insert_eq.
      reflexivity.
    + intros k Hk. rewrite !lookup_payload. simpl.
      unfold otherProps. simpl.
      rewrite lookup_insert_ne by congruence. reflexivity.
Qed.

End handlers_at_work.

(** The witness of X11: the README's reducer started as there, with the
    two operators on whole numbers. *)
Lemma Reducer_known_actions_witness :
  let plus a b := match a, b with VNum x, VNum y => VNum (x + y) | _, _ => VNaN end in
  let minus a b := match a, b with VNum x, VNum y => VNum (x - y) | _, _ => VNaN end in
  let s : gmap string value := {["foo" := VStr ""; "bar" := VNum 0]} in
  let this := Instance ∅ (VObj 7 s) VUndefined VUndefined in
  action plus minus (λ _ _, throw) "foo:update"
         (VObj 8 {["foo" := VStr "hi"]}) this w0
  = (Some (with_state this (VObj 101 (<["foo" := VStr "hi"]> s))),
     World 102 [])
  ∧ action plus minus (λ _ _, throw) "bar:inc" VUndefined this w0
    = (Some (with_state this (VObj 101 (<["bar" := VNum 1]> s))),
       World 102 []).
Proof.
  intros plus minus s this.
  destruct (Reducer_known_actions plus minus (λ _ _, throw) this w0
              (VObj 8 {["foo" := VStr "hi"]})) as (Hfoo & _ & _).
  destruct (Reducer_known_actions plus minus (λ _ _, throw) this w0
              VUndefined) as (_ & _ & Hbar).
  split.
  - rewrite Hfoo by discriminate. reflexivity.
  - destruct Hbar as [Hinc _]; [discriminate|discriminate|].
    rewrite Hinc. reflexivity.
Defined.

(** The witness of X12: a change event on a container of class [Text]. *)
Lemma setText_shows_in_the_next_payload_witness :
  let target := VObj 51 {["value" := VStr "hello"]} in
  let e := VObj 50 {["target" := target]} in
  let this := Instance {["other" := VNum 1]} (VObj 100 ∅)
                (VObj 101 {["setText" := VFun 102 "setText" setText_body]})
                VUndefined in
  ∃ this', setText e this w0 = (Some this', World 102 [])
           ∧ payload this' !! "text" = Some (VStr "hello")
           ∧ payload this' !! "other" = Some (VNum 1).
Proof.
  intros target e this.
  destruct (setText_shows_in_the_next_payload e target (VStr "hello") this w0
              eq_refl eq_refl eq_refl) as (this' & Hs & Ht & Hk & _).
  exists this'. split; [exact Hs|]. split; [exact Ht|].
  rewrite Hk by discriminate. reflexivity.
Defined.
